(** * Bioenergy project calculator: the calculation engine, in Rocq

    A shallow embedding of the three calculation modules of the dashboard

      - [feedstock_data.py]          (module [FeedstockData])
      - [process_calculations.py]    (module [ProcessCalculations])
      - [financial_calculations.py]  (module [FinancialCalculations])

    followed by the properties established about them.

    Numbers.  The feedstock table is a pandas frame of [float64] columns, and
    what it does on a zero denominator (NaN, infinity, no exception) is IEEE
    behaviour, so [FeedstockData] computes on binary64 floats ([PrimFloat]).
    The sizing and finance modules work on plain Python numbers; there the
    embedding uses exact rationals ([Q]) for the arithmetic, and keeps what
    Python adds on top of it: [ZeroDivisionError] on a zero divisor and
    [KeyError] on a missing dictionary key, both carried by [result].  The
    payback period is decided by the sign of a running binary64 sum, so the
    cash-flow and payback loops are embedded on floats as well
    ([Binary64]). *)

From Stdlib Require Import ZArith QArith Qabs Qpower Qround List String Bool Lia Lqa.
From Stdlib Require Import Floats Sorted.
Import ListNotations.

(** ** Python exceptions as a result type *)

Inductive exn : Type :=
| ZeroDivisionError
| KeyError (key : string).

Inductive result (A : Type) : Type :=
| Ok (a : A)
| Raise (e : exn).

Arguments Ok {A} a.
Arguments Raise {A} e.

Definition bind {A B : Type} (r : result A) (k : A -> result B) : result B :=
  match r with
  | Ok a => k a
  | Raise e => Raise e
  end.

Notation "x <- r ;; k" := (bind r (fun x => k))
  (at level 61, r at next level, right associativity).

(** [x < y] on exact numbers, as a test. *)
Definition Qlt_bool (x y : Q) : bool := negb (Qle_bool y x).

(** ** feedstock_data.py *)

Module FeedstockData.

Local Open Scope float_scope.
#[local] Set Warnings "-inexact-float".

(** One row of the feedstock frame (the columns of [DEFAULT_FEEDSTOCKS]). *)
Record feedstock : Type := mkFeedstock {
  quantity : float;
  ts : float;
  vs : float;
  bmp : float;
  ch4 : float;
  tkn : float;
  tan : float;
  distance : float;
  cost_per_tonne : float
}.

(** One row of the frame returned by [calculate_biogas_yield]: the input
    columns and the ten computed ones. *)
Record yield_row : Type := mkYieldRow {
  inputs : feedstock;
  vs_tonnes : float;
  biogas_yield : float;
  methane_yield : float;
  energy_content_kwh : float;
  energy_content_gj : float;
  transport_cost : float;
  feedstock_cost : float;
  total_cost : float;
  cost_per_gj : float;
  cost_per_mwh : float
}.

(** The column assignments of [calculate_biogas_yield], for one row.  Each
    column operation of pandas acts row by row. *)
Definition calculate_biogas_yield_row (f : feedstock) : yield_row :=
  let vs_tonnes := quantity f * (ts f / 100) * (vs f / 100) in
  let biogas_yield := vs_tonnes * bmp f in
  let methane_yield := biogas_yield * (ch4 f / 100) in
  let energy_content_kwh := methane_yield * 9.97 in
  let energy_content_gj := energy_content_kwh * 0.0036 in
  let transport_cost := quantity f * distance f * 0.1 in
  let feedstock_cost := quantity f * cost_per_tonne f in
  let total_cost := transport_cost + feedstock_cost in
  let cost_per_gj := total_cost / energy_content_gj in
  let cost_per_mwh := cost_per_gj * 3.6 in
  mkYieldRow f vs_tonnes biogas_yield methane_yield energy_content_kwh
             energy_content_gj transport_cost feedstock_cost total_cost
             cost_per_gj cost_per_mwh.

Definition calculate_biogas_yield (feedstock_df : list feedstock) : list yield_row :=
  map calculate_biogas_yield_row feedstock_df.

(** [Series.sum()]: NaN entries are skipped ([skipna=True] is the default),
    and the sum of an empty column is 0. *)
Definition series_sum (column : list float) : float :=
  fold_left (fun acc x => if PrimFloat.is_nan x then acc else acc + x) column 0.

(** The dictionary returned by [get_total_metrics]; its key ['total_cost'] is
    the field [total_total_cost], the name [total_cost] being the column. *)
Record totals : Type := mkTotals {
  total_quantity : float;
  total_vs_tonnes : float;
  total_biogas_yield : float;
  total_methane_yield : float;
  total_energy_content_gj : float;
  total_transport_cost : float;
  total_feedstock_cost : float;
  total_total_cost : float;
  avg_cost_per_gj : float;
  avg_cost_per_mwh : float;
  biogas_output_nm3h : float
}.

Definition get_total_metrics (feedstock_df : list yield_row) : totals :=
  let column (c : yield_row -> float) := series_sum (map c feedstock_df) in
  let t_quantity := column (fun r => quantity (inputs r)) in
  let t_vs_tonnes := column vs_tonnes in
  let t_biogas_yield := column biogas_yield in
  let t_methane_yield := column methane_yield in
  let t_energy_content_gj := column energy_content_gj in
  let t_transport_cost := column transport_cost in
  let t_feedstock_cost := column feedstock_cost in
  let t_cost := column total_cost in
  let '(avg_gj, avg_mwh) :=
    if 0 <? t_energy_content_gj then
      let avg_gj := t_cost / t_energy_content_gj in
      (avg_gj, avg_gj * 3.6)
    else (0, 0) in
  mkTotals t_quantity t_vs_tonnes t_biogas_yield t_methane_yield
           t_energy_content_gj t_transport_cost t_feedstock_cost t_cost
           avg_gj avg_mwh (t_biogas_yield / 8760).

(** The "Meat" entry of [DEFAULT_FEEDSTOCKS]. *)
Definition meat : feedstock :=
  mkFeedstock 2622 32.0 92.0 628.4 60.0 2.75 17.1 50 20.

Definition with_quantity (q : float) (f : feedstock) : feedstock :=
  mkFeedstock q (ts f) (vs f) (bmp f) (ch4 f) (tkn f) (tan f)
              (distance f) (cost_per_tonne f).

Definition with_bmp (b : float) (f : feedstock) : feedstock :=
  mkFeedstock (quantity f) (ts f) (vs f) b (ch4 f) (tkn f) (tan f)
              (distance f) (cost_per_tonne f).

End FeedstockData.

(** ** process_calculations.py *)

Module ProcessCalculations.

Local Open Scope Q_scope.

(** [sorted(l)] and [sorted(l, reverse=True)] on integers: a stable insertion
    sort, ascending or descending. *)
Fixpoint insert_by (le : Z -> Z -> bool) (x : Z) (l : list Z) : list Z :=
  match l with
  | [] => [x]
  | y :: l' => if le x y then x :: l else y :: insert_by le x l'
  end.

Definition sorted_by (le : Z -> Z -> bool) (l : list Z) : list Z :=
  fold_right (insert_by le) [] l.

Definition sorted (l : list Z) : list Z := sorted_by Z.leb l.
Definition sorted_reverse (l : list Z) : list Z := sorted_by Z.geb l.

(** [sum(units)] *)
Definition sum (l : list Z) : Z := fold_left Z.add l 0%Z.

Definition available_sizes : list Z :=
  [100; 250; 500; 800; 1000; 1500; 2000]%Z.

(** The loop state of [size_chp_units]: the list [units] and
    [remaining_capacity]. *)
Definition chp_state : Type := (list Z * Q)%type.

(** [while remaining_capacity >= size * 0.8: units.append(size);
    remaining_capacity -= size], run for at most [fuel] iterations. *)
Fixpoint add_units (fuel : nat) (size : Z) (st : chp_state) : chp_state :=
  match fuel with
  | O => st
  | S fuel' =>
      let '(units, remaining_capacity) := st in
      if Qle_bool (inject_Z size * 0.8) remaining_capacity
      then add_units fuel' size
             (units ++ [size], remaining_capacity - inject_Z size)
      else st
  end.

(** Iterations that the [while] loop of one size can need: each one takes
    [size] off the remaining capacity. *)
Definition add_units_fuel (size : Z) (st : chp_state) : nat :=
  S (Z.to_nat (Qfloor (snd st / inject_Z size))).

(** [for size in sorted(available_sizes, reverse=True): while ...] *)
Definition greedy_fill (sizes : list Z) (st : chp_state) : chp_state :=
  fold_left (fun st size => add_units (add_units_fuel size st) size st) sizes st.

(** [if remaining_capacity > 50: for size in sorted(available_sizes): if size
    >= remaining_capacity: ...; break] *)
Definition top_up (sizes : list Z) (st : chp_state) : chp_state :=
  let '(units, remaining_capacity) := st in
  if Qlt_bool 50 remaining_capacity then
    match find (fun size => Qle_bool remaining_capacity (inject_Z size)) sizes with
    | Some size => (units ++ [size], 0)
    | None => st
    end
  else st.

Record chp_configuration : Type := mkChp {
  chp_units : list Z;
  number_of_units : nat;
  total_installed_capacity_kw : Z;
  capacity_utilization : Q
}.

Definition size_chp_units (power_capacity_kw : Q) : chp_configuration :=
  let st := greedy_fill (sorted_reverse available_sizes) ([], power_capacity_kw) in
  let '(units, _) := top_up (sorted available_sizes) st in
  let total_capacity := sum units in
  mkChp units (List.length units) total_capacity
        (if (0 <? total_capacity)%Z
         then power_capacity_kw / inject_Z total_capacity
         else 0).

End ProcessCalculations.

(** ** financial_calculations.py *)

Module FinancialCalculations.

Local Open Scope Q_scope.

(** *** Python arithmetic that can raise *)

(** [a / b] on Python numbers. *)
Definition py_div (a b : Q) : result Q :=
  if Qeq_bool b 0 then Raise ZeroDivisionError else Ok (a / b).

(** [b ** n] for a number [b] and an [int] exponent [n]. *)
Definition py_pow (b : Q) (n : Z) : result Q :=
  if Qeq_bool b 0 && (n <? 0)%Z then Raise ZeroDivisionError else Ok (b ^ n).

(** [max(0, x)] *)
Definition py_max0 (x : Q) : Q := if Qlt_bool 0 x then x else 0.

(** [range(lo, hi)] *)
Definition range (lo hi : Z) : list Z :=
  map (fun i => (lo + Z.of_nat i)%Z) (seq 0 (Z.to_nat (hi - lo))).

(** *** Cost breakdowns: dictionaries from line names to amounts, in
    insertion order *)

Definition dict : Type := list (string * Q).

(** [d[key]] *)
Fixpoint getitem (d : dict) (key : string) : result Q :=
  match d with
  | [] => Raise (KeyError key)
  | (k, v) :: d' => if String.eqb key k then Ok v else getitem d' key
  end.

Definition calculate_capex (digester_volume : Q) (output_type : string)
    (chp_capacity : Q) : dict :=
  let digester_cost_per_m3 := 500 in
  let digester_cost := digester_volume * digester_cost_per_m3 in
  let reception_cost := 0.15 * digester_cost in
  let biogas_handling_cost := 0.1 * digester_cost in
  let digestate_handling_cost := 0.12 * digester_cost in
  let control_systems_cost := 0.08 * digester_cost in
  let '(output_specific_name, output_specific_cost) :=
    if String.eqb output_type "biogas" then
      let biogas_output_m3h := (digester_volume * 1.5) / 8760 in
      let upgrading_cost_per_m3h := 10000 in
      let upgrading_cost := biogas_output_m3h * upgrading_cost_per_m3h in
      ("Biogas Upgrading System"%string, upgrading_cost)
    else
      let chp_cost_per_kw := 1500 in
      let chp_cost := chp_capacity * chp_cost_per_kw in
      ("CHP System"%string, chp_cost) in
  let epc_cost :=
    0.15 * (digester_cost + reception_cost + biogas_handling_cost +
            digestate_handling_cost + control_systems_cost + output_specific_cost) in
  let contingency :=
    0.1 * (digester_cost + reception_cost + biogas_handling_cost +
           digestate_handling_cost + control_systems_cost + output_specific_cost +
           epc_cost) in
  let total_capex :=
    digester_cost + reception_cost + biogas_handling_cost +
    digestate_handling_cost + control_systems_cost + output_specific_cost +
    epc_cost + contingency in
  [ ("Digester System"%string, digester_cost);
    ("Reception and Pre-treatment"%string, reception_cost);
    ("Biogas Handling"%string, biogas_handling_cost);
    ("Digestate Handling"%string, digestate_handling_cost);
    ("Control Systems"%string, control_systems_cost);
    (output_specific_name, output_specific_cost);
    ("EPC Costs"%string, epc_cost);
    ("Contingency"%string, contingency);
    ("Total CAPEX"%string, total_capex) ].

Definition calculate_opex (total_feedstock digester_volume : Q)
    (output_type : string) (capex : dict) (chp_capacity : Q) : result dict :=
  let maintenance_percentage := 0.03 in
  capex_total <- getitem capex "Total CAPEX" ;;
  let maintenance_cost := maintenance_percentage * capex_total in
  let labor_cost :=
    if Qlt_bool digester_volume 2000 then 150000
    else if Qlt_bool digester_volume 5000 then 250000
    else 350000 in
  let consumables_cost_per_tonne := 2.5 in
  let consumables_cost := total_feedstock * consumables_cost_per_tonne in
  let insurance_percentage := 0.01 in
  capex_total' <- getitem capex "Total CAPEX" ;;
  let insurance_cost := insurance_percentage * capex_total' in
  output_specific <-
    (if String.eqb output_type "biogas" then
       let upgrading_opex_percentage := 0.05 in
       upgrading <- getitem capex "Biogas Upgrading System" ;;
       Ok ("Biogas Upgrading O&M"%string, upgrading_opex_percentage * upgrading)
     else
       let chp_operating_hours := 8000 in
       let chp_output_kwh := chp_capacity * chp_operating_hours in
       let chp_maintenance_per_kwh := 0.02 in
       Ok ("CHP Maintenance"%string, chp_output_kwh * chp_maintenance_per_kwh)) ;;
  let '(output_specific_name, output_specific_cost) := output_specific in
  let utilities_cost_per_m3 := 15 in
  let utilities_cost := digester_volume * utilities_cost_per_m3 in
  let total_opex :=
    maintenance_cost + labor_cost + consumables_cost +
    insurance_cost + output_specific_cost + utilities_cost in
  Ok [ ("Maintenance"%string, maintenance_cost);
       ("Labor"%string, labor_cost);
       ("Consumables"%string, consumables_cost);
       ("Insurance"%string, insurance_cost);
       (output_specific_name, output_specific_cost);
       ("Utilities"%string, utilities_cost);
       ("Total OPEX"%string, total_opex) ].

(** [for year in range(1, project_lifetime + 1):
      pv += amount / ((1 + discount_rate) ** year)]
    (the two loops of [calculate_lcoe]). *)
Fixpoint present_value (amount discount_rate : Q) (years : list Z) (pv : Q)
    : result Q :=
  match years with
  | [] => Ok pv
  | year :: rest =>
      factor <- py_pow (1 + discount_rate) year ;;
      term <- py_div amount factor ;;
      present_value amount discount_rate rest (pv + term)
  end.

Definition calculate_lcoe (capex opex : dict) (annual_energy_output : Q)
    (project_lifetime : Z) (discount_rate : Q) : result Q :=
  if Qle_bool annual_energy_output 0 then Ok 0
  else
    total_capex <- getitem capex "Total CAPEX" ;;
    annual_opex <- getitem opex "Total OPEX" ;;
    pv_costs <- present_value annual_opex discount_rate
                  (range 1 (project_lifetime + 1)) total_capex ;;
    pv_energy <- present_value annual_energy_output discount_rate
                   (range 1 (project_lifetime + 1)) 0 ;;
    if Qlt_bool 0 pv_energy then Ok (pv_costs / pv_energy) else Ok 0.

(** *** calculate_financial_metrics *)

(** The annual debt service (the [if debt_interest > 0] statement). *)
Definition annual_debt_service_of (debt_amount debt_interest : Q) (debt_term : Z)
    : result Q :=
  if Qlt_bool 0 debt_interest then
    growth <- py_pow (1 + debt_interest) debt_term ;;
    growth' <- py_pow (1 + debt_interest) debt_term ;;
    py_div (debt_amount * debt_interest * growth) (growth' - 1)
  else
    py_div debt_amount (inject_Z debt_term).

(** The body of the cash-flow loop: the flow [cf] of one [year]. *)
Definition annual_cash_flow (annual_revenue annual_opex annual_debt_service
    tax_rate : Q) (debt_term year : Z) : Q :=
  let cf := annual_revenue in
  let cf := cf - annual_opex in
  let cf := if (year <=? debt_term)%Z then cf - annual_debt_service else cf in
  let taxable_income := annual_revenue - annual_opex in
  let taxable_income :=
    if (year <=? debt_term)%Z
    then taxable_income - annual_debt_service * 0.3
    else taxable_income in
  let tax := py_max0 (taxable_income * tax_rate) in
  cf - tax.

(** The list [cash_flows]: the equity outlay of year 0, then one flow per
    year of the project. *)
Definition build_cash_flows (equity_amount annual_revenue annual_opex
    annual_debt_service tax_rate : Q) (debt_term project_lifetime : Z) : list Q :=
  [- equity_amount] ++
  map (annual_cash_flow annual_revenue annual_opex annual_debt_service
         tax_rate debt_term)
      (range 1 (project_lifetime + 1)).

(** [for year, cf in enumerate(flows, year): npv += cf / ((1 + rate) ** year)] *)
Fixpoint discount_flows (rate : Q) (flows : list Q) (year : Z) (npv : Q)
    : result Q :=
  match flows with
  | [] => Ok npv
  | cf :: rest =>
      factor <- py_pow (1 + rate) year ;;
      term <- py_div cf factor ;;
      discount_flows rate rest (year + 1) (npv + term)
  end.

(** [npv = cash_flows[0]], then the loop over [cash_flows[1:]] from year 1:
    the net present value of the series at [rate]. *)
Definition npv_of (cash_flows : list Q) (rate : Q) : result Q :=
  discount_flows rate (tl cash_flows) 1 (hd 0 cash_flows).

(** The state of the IRR search. *)
Record irr_state : Type := mkIrr {
  irr : Q;
  step : Q;
  direction : Z
}.

(** [for _ in range(iterations): ...], with [break] as an early return of
    the current [irr]. *)
Fixpoint irr_loop (iterations : nat) (cash_flows : list Q) (st : irr_state)
    : result Q :=
  match iterations with
  | O => Ok (irr st)
  | S iterations' =>
      npv_at_irr <- npv_of cash_flows (irr st) ;;
      if Qlt_bool (Qabs npv_at_irr) 1 then Ok (irr st)
      else
        let st1 :=
          if Qlt_bool (npv_at_irr * inject_Z (direction st)) 0
          then mkIrr (irr st) (step st / 2) (- direction st)
          else st in
        irr_loop iterations' cash_flows
          (mkIrr (irr st1 + step st1 * inject_Z (direction st1))
                 (step st1) (direction st1))
  end.

Definition calculate_irr (cash_flows : list Q) : result Q :=
  irr_loop 20 cash_flows (mkIrr 0.1 0.05 1).

(** The payback loop: running [cumulative_cf] and [payback_period]. *)
Fixpoint payback_loop (flows : list Q) (year : Z) (cumulative_cf : Q)
    (payback_period : Z) : Q * Z :=
  match flows with
  | [] => (cumulative_cf, payback_period)
  | cf :: rest =>
      let cumulative_cf := cumulative_cf + cf in
      let payback_period :=
        if Qle_bool 0 cumulative_cf && (payback_period =? 0)%Z
        then year else payback_period in
      payback_loop rest (year + 1) cumulative_cf payback_period
  end.

Definition calculate_payback (cash_flows : list Q) (project_lifetime : Z) : Z :=
  let '(cumulative_cf, payback_period) :=
    payback_loop (tl cash_flows) 1 (hd 0 cash_flows) 0 in
  if (payback_period =? 0)%Z && Qlt_bool cumulative_cf 0
  then (project_lifetime + 1)%Z
  else payback_period.

(** A ratio that can be [float('inf')]. *)
Inductive ratio : Type :=
| Finite (q : Q)
| Infinite.

Record financial_metrics : Type := mkMetrics {
  NPV : Q;
  IRR : Q;
  Payback_Period : Z;
  Debt_Service_Coverage_Ratio : ratio;
  Equity_Return : Q
}.

(** The cash-flow series that [calculate_financial_metrics] builds (its
    local [cash_flows]). *)
Definition cash_flows_of (capex opex : dict) (annual_revenue : Q)
    (project_lifetime : Z) (debt_percentage debt_interest : Q) (debt_term : Z)
    (tax_rate : Q) : result (list Q) :=
  total_capex <- getitem capex "Total CAPEX" ;;
  annual_opex <- getitem opex "Total OPEX" ;;
  let debt_amount := total_capex * debt_percentage in
  let equity_amount := total_capex * (1 - debt_percentage) in
  annual_debt_service <-
    annual_debt_service_of debt_amount debt_interest debt_term ;;
  Ok (build_cash_flows equity_amount annual_revenue annual_opex
        annual_debt_service tax_rate debt_term project_lifetime).

Definition calculate_financial_metrics (capex opex : dict) (annual_revenue : Q)
    (project_lifetime : Z) (discount_rate debt_percentage debt_interest : Q)
    (debt_term : Z) (tax_rate : Q) : result financial_metrics :=
  total_capex <- getitem capex "Total CAPEX" ;;
  annual_opex <- getitem opex "Total OPEX" ;;
  let debt_amount := total_capex * debt_percentage in
  let equity_amount := total_capex * (1 - debt_percentage) in
  annual_debt_service <-
    annual_debt_service_of debt_amount debt_interest debt_term ;;
  let cash_flows :=
    build_cash_flows equity_amount annual_revenue annual_opex
      annual_debt_service tax_rate debt_term project_lifetime in
  npv <- npv_of cash_flows discount_rate ;;
  irr <- calculate_irr cash_flows ;;
  let payback_period := calculate_payback cash_flows project_lifetime in
  Ok (mkMetrics npv irr payback_period
        (if Qlt_bool 0 annual_debt_service
         then Finite ((annual_revenue - annual_opex) / annual_debt_service)
         else Infinite)
        irr).

End FinancialCalculations.

(** ** process_calculations.py: digester, energy outputs, parasitic load
    and digestate *)

Module ProcessOutputs.

Import FinancialCalculations.

Local Open Scope Q_scope.

(** [d[key] = v]: the value of an existing key is replaced in place, a new
    key goes last. *)
Fixpoint setitem (d : dict) (key : string) (v : Q) : dict :=
  match d with
  | [] => [(key, v)]
  | (k, x) :: d' =>
      if String.eqb key k then (k, v) :: d' else (k, x) :: setitem d' key v
  end.

(** [d.get(key, default)] *)
Definition get (d : dict) (key : string) (default : Q) : Q :=
  match getitem d key with
  | Ok v => v
  | Raise _ => default
  end.

Definition calculate_digester_size (total_vs_tonnes loading_rate : Q) : result Q :=
  let vs_kg_per_day := total_vs_tonnes * 1000 / 365 in
  digester_volume <- py_div vs_kg_per_day loading_rate ;;
  Ok digester_volume.

(** The default [loading_rate=3.5]. *)
Definition default_loading_rate : Q := 3.5.

Definition calculate_biogas_to_energy (methane_yield : Q) (output_type : string)
    : result dict :=
  let methane_energy_content := 9.97 in
  let total_energy_kwh := methane_yield * methane_energy_content in
  let results :=
    [ ("total_energy_kwh"%string, total_energy_kwh);
      ("total_energy_mwh"%string, total_energy_kwh / 1000);
      ("total_energy_gj"%string, total_energy_kwh * 0.0036) ] in
  if String.eqb output_type "biogas" then
    let upgrading_efficiency := 0.98 in
    let results :=
      setitem results "biogas_energy_kwh" (total_energy_kwh * upgrading_efficiency) in
    biogas_energy_kwh <- getitem results "biogas_energy_kwh" ;;
    let results := setitem results "biogas_energy_mwh" (biogas_energy_kwh / 1000) in
    biogas_energy_kwh <- getitem results "biogas_energy_kwh" ;;
    let results := setitem results "biogas_energy_gj" (biogas_energy_kwh * 0.0036) in
    Ok results
  else if String.eqb output_type "chp" then
    let electrical_efficiency := 0.40 in
    let thermal_efficiency := 0.45 in
    let results :=
      setitem results "electrical_output_kwh"
        (total_energy_kwh * electrical_efficiency) in
    electrical_output_kwh <- getitem results "electrical_output_kwh" ;;
    let results :=
      setitem results "electrical_output_mwh" (electrical_output_kwh / 1000) in
    let results :=
      setitem results "thermal_output_kwh" (total_energy_kwh * thermal_efficiency) in
    thermal_output_kwh <- getitem results "thermal_output_kwh" ;;
    let results := setitem results "thermal_output_mwh" (thermal_output_kwh / 1000) in
    thermal_output_kwh <- getitem results "thermal_output_kwh" ;;
    let results :=
      setitem results "thermal_output_gj" (thermal_output_kwh * 0.0036) in
    electrical_output_kwh <- getitem results "electrical_output_kwh" ;;
    let results :=
      setitem results "power_capacity_kw" (electrical_output_kwh / 8760) in
    thermal_output_kwh <- getitem results "thermal_output_kwh" ;;
    let results := setitem results "heat_capacity_kw" (thermal_output_kwh / 8760) in
    Ok results
  else Ok results.

Definition calculate_parasitic_load (digester_volume : Q) (output_type : string)
    : dict :=
  let base_load_per_m3 := 80 in
  let upgrading_load_factor :=
    if String.eqb output_type "biogas" then 1.5 else 1.0 in
  let total_parasitic_kwh :=
    digester_volume * base_load_per_m3 * upgrading_load_factor in
  [ ("parasitic_load_kwh"%string, total_parasitic_kwh);
    ("parasitic_load_mwh"%string, total_parasitic_kwh / 1000);
    ("parasitic_load_percentage"%string, 0) ].

Definition calculate_digestate_production (total_feedstock total_vs_tonnes
    vs_destruction : Q) : dict :=
  let vs_destroyed := total_vs_tonnes * vs_destruction in
  let digestate_tonnes := total_feedstock - vs_destroyed in
  let solid_fraction := 0.25 in
  let liquid_fraction := 0.75 in
  let solid_digestate := digestate_tonnes * solid_fraction in
  let liquid_digestate := digestate_tonnes * liquid_fraction in
  [ ("total_digestate_tonnes"%string, digestate_tonnes);
    ("solid_digestate_tonnes"%string, solid_digestate);
    ("liquid_digestate_tonnes"%string, liquid_digestate) ].

(** The default [vs_destruction=0.7]. *)
Definition default_vs_destruction : Q := 0.7.

End ProcessOutputs.

(** ** app.py: the session callbacks, the financial tab and the sensitivity
    breakdowns *)

Module App.

Import FeedstockData FinancialCalculations ProcessOutputs.

#[local] Set Warnings "-inexact-float".

(** [DEFAULT_FEEDSTOCKS] (of feedstock_data.py), in the order of the
    source. *)
Definition DEFAULT_FEEDSTOCKS : list (string * feedstock) :=
  [ ("Meat"%string,
     mkFeedstock 2622 32.0 92.0 628.4 60.0 2.75 17.1 50 20);
    ("Digestate Sludge"%string,
     mkFeedstock 1495 20.0 89.0 280.9 55.0 1.56 10.0 10 5);
    ("Blood Filter Cake"%string,
     mkFeedstock 3000 5.3 96.0 660.0 68.0 13.61 1.4 60 15);
    ("Chicken Carcasses"%string,
     mkFeedstock 1000 26.0 86.0 402.5 60.0 5.00 10.0 70 10);
    ("Chicken Litter"%string,
     mkFeedstock 10000 45.0 75.0 500.0 60.0 4.86 10.0 80 5);
    ("Grain Mix"%string,
     mkFeedstock 2000 87.0 96.0 729.8 56.5 2.99 10.0 100 30);
    ("Crop Straw"%string,
     mkFeedstock 12500 85.0 75.0 350.0 51.0 0.29 10.0 120 25) ]%float.

(** The dictionary [st.session_state.active_feedstocks]: feedstock names to
    parameter rows, in insertion order. *)
Definition feedstocks : Type := list (string * feedstock).

(** [name in d] *)
Definition contains (d : feedstocks) (name : string) : bool :=
  existsb (fun entry => String.eqb name (fst entry)) d.

(** [d[name]] *)
Fixpoint lookup (d : feedstocks) (name : string) : result feedstock :=
  match d with
  | [] => Raise (KeyError name)
  | (k, v) :: d' => if String.eqb name k then Ok v else lookup d' name
  end.

(** [d[name] = v] *)
Fixpoint store (d : feedstocks) (name : string) (v : feedstock) : feedstocks :=
  match d with
  | [] => [(name, v)]
  | (k, x) :: d' =>
      if String.eqb name k then (k, v) :: d' else (k, x) :: store d' name v
  end.

(** [del d[name]], for a name that is in [d]. *)
Fixpoint del (d : feedstocks) (name : string) : feedstocks :=
  match d with
  | [] => []
  | (k, x) :: d' => if String.eqb name k then d' else (k, x) :: del d' name
  end.

(** [add_feedstock]: the new [active_feedstocks] and the message shown by
    [st.success], if any. *)
Definition add_feedstock (active_feedstocks : feedstocks) (feedstock_name : string)
    : result (feedstocks * option string) :=
  if negb (contains active_feedstocks feedstock_name) then
    defaults <- lookup DEFAULT_FEEDSTOCKS feedstock_name ;;
    Ok (store active_feedstocks feedstock_name defaults,
        Some ("Added " ++ feedstock_name ++ " to active feedstocks")%string)
  else Ok (active_feedstocks, None).

(** [remove_feedstock] *)
Definition remove_feedstock (active_feedstocks : feedstocks)
    (feedstock_name : string) : feedstocks * option string :=
  if contains active_feedstocks feedstock_name then
    (del active_feedstocks feedstock_name,
     Some ("Removed " ++ feedstock_name ++ " from active feedstocks")%string)
  else (active_feedstocks, None).

Local Open Scope Q_scope.

(** [{k: v * factor for k, v in d.items()}] (the adjusted breakdowns of the
    sensitivity analysis). *)
Definition scale_dict (d : dict) (factor : Q) : dict :=
  map (fun entry => (fst entry, snd entry * factor)) d.

(** What the financial tab computes. *)
Record financial_results : Type := mkResults {
  capex : dict;
  opex : dict;
  annual_energy : Q;
  lcoe : Q;
  annual_revenue : Q;
  financial_metrics_of : financial_metrics
}.

(** The calculations of the financial tab, from the totals of the active
    feedstocks on: digester size, energy outputs, CAPEX, OPEX, LCOE, revenue
    and financial metrics. *)
Definition financial_tab (total_quantity total_vs_tonnes total_methane_yield : Q)
    (output_type : string) (project_lifetime : Z)
    (discount_rate debt_percentage debt_interest : Q) (debt_term : Z)
    : result financial_results :=
  recommended_digester_size <-
    calculate_digester_size total_vs_tonnes default_loading_rate ;;
  let digester_size := recommended_digester_size in
  let num_digesters := if Qlt_bool 5000 digester_size then 2 else 1 in
  energy_outputs <- calculate_biogas_to_energy total_methane_yield output_type ;;
  capex <-
    (if String.eqb output_type "chp" then
       chp_capacity <- getitem energy_outputs "power_capacity_kw" ;;
       Ok (calculate_capex (digester_size * num_digesters) output_type chp_capacity)
     else
       Ok (calculate_capex (digester_size * num_digesters) output_type 0)) ;;
  opex <-
    calculate_opex total_quantity (digester_size * num_digesters) output_type
      capex (get energy_outputs "power_capacity_kw" 0) ;;
  annual_energy <-
    (if String.eqb output_type "biogas"
     then getitem energy_outputs "biogas_energy_gj"
     else getitem energy_outputs "electrical_output_mwh") ;;
  lcoe <-
    calculate_lcoe capex opex annual_energy project_lifetime discount_rate ;;
  annual_revenue <-
    (if String.eqb output_type "biogas" then
       let biogas_price := 15 in
       Ok (annual_energy * biogas_price)
     else
       let electricity_price := 100 in
       let heat_price := 10 in
       let heat_utilization := 0.5 in
       electrical_output_mwh <- getitem energy_outputs "electrical_output_mwh" ;;
       thermal_output_gj <- getitem energy_outputs "thermal_output_gj" ;;
       Ok (electrical_output_mwh * electricity_price
           + thermal_output_gj * heat_utilization * heat_price)) ;;
  financial_metrics <-
    calculate_financial_metrics capex opex annual_revenue project_lifetime
      discount_rate debt_percentage debt_interest debt_term 0.3 ;;
  Ok (mkResults capex opex annual_energy lcoe annual_revenue financial_metrics).

End App.

(** ** financial_calculations.py on binary64: the cash flows and the payback
    period

    The payback period is read off a running sum of cash flows that the code
    keeps in binary64 and tests against zero, so this part of
    [calculate_financial_metrics] (the cash-flow loop and the payback loop) is
    embedded on floats as well, from the amounts the function has computed
    before it: the two totals and the annual debt service.  None of its
    operations can raise. *)

Module Binary64.

Local Open Scope float_scope.
#[local] Set Warnings "-inexact-float".

(** [max(0, x)] *)
Definition py_max0 (x : float) : float := if 0 <? x then x else 0.

(** The body of the cash-flow loop: the flow [cf] of one [year]. *)
Definition annual_cash_flow (annual_revenue annual_opex annual_debt_service
    tax_rate : float) (debt_term year : Z) : float :=
  let cf := annual_revenue in
  let cf := cf - annual_opex in
  let cf := if (year <=? debt_term)%Z then cf - annual_debt_service else cf in
  let taxable_income := annual_revenue - annual_opex in
  let taxable_income :=
    if (year <=? debt_term)%Z
    then taxable_income - annual_debt_service * 0.3
    else taxable_income in
  let tax := py_max0 (taxable_income * tax_rate) in
  cf - tax.

(** The list [cash_flows]. *)
Definition build_cash_flows (equity_amount annual_revenue annual_opex
    annual_debt_service tax_rate : float) (debt_term project_lifetime : Z)
    : list float :=
  [- equity_amount] ++
  map (annual_cash_flow annual_revenue annual_opex annual_debt_service
         tax_rate debt_term)
      (FinancialCalculations.range 1 (project_lifetime + 1)).

(** The series that [calculate_financial_metrics] builds from its totals:
    [equity_amount = total_capex * (1 - debt_percentage)] and the loop. *)
Definition cash_flows_of (total_capex annual_opex annual_revenue : float)
    (project_lifetime : Z) (debt_percentage annual_debt_service : float)
    (debt_term : Z) (tax_rate : float) : list float :=
  let equity_amount := total_capex * (1 - debt_percentage) in
  build_cash_flows equity_amount annual_revenue annual_opex
    annual_debt_service tax_rate debt_term project_lifetime.

(** The payback loop: running [cumulative_cf] and [payback_period]. *)
Fixpoint payback_loop (flows : list float) (year : Z) (cumulative_cf : float)
    (payback_period : Z) : float * Z :=
  match flows with
  | [] => (cumulative_cf, payback_period)
  | cf :: rest =>
      let cumulative_cf := cumulative_cf + cf in
      let payback_period :=
        if (0 <=? cumulative_cf) && (payback_period =? 0)%Z
        then year else payback_period in
      payback_loop rest (year + 1) cumulative_cf payback_period
  end.

Definition calculate_payback (cash_flows : list float) (project_lifetime : Z)
    : Z :=
  let '(cumulative_cf, payback_period) :=
    payback_loop (tl cash_flows) 1 (hd 0 cash_flows) 0 in
  if (payback_period =? 0)%Z && (cumulative_cf <? 0)
  then (project_lifetime + 1)%Z
  else payback_period.

(** The running cumulative cash flow of the code after the flows
    [flows[0..j]] have been added, one binary64 addition per flow. *)
Fixpoint cumulative_after (cumulative_cf : float) (flows : list float) (j : nat)
    : float :=
  match flows, j with
  | [], _ => cumulative_cf
  | cf :: _, O => cumulative_cf + cf
  | cf :: rest, S j' => cumulative_after (cumulative_cf + cf) rest j'
  end.

(** The cumulative cash flow of the code at the end of [year]. *)
Definition cumulative_cash_flow (cash_flows : list float) (year : Z) : float :=
  match Z.to_nat year with
  | O => hd 0 cash_flows
  | S j => cumulative_after (hd 0 cash_flows) (tl cash_flows) j
  end.

End Binary64.

(** ** Notions used to state the properties *)

Import FeedstockData ProcessCalculations FinancialCalculations.
Import ProcessOutputs App.

Local Open Scope Q_scope.

(** The entries of a breakdown other than the one named [total_key], and the
    sum of the amounts of a breakdown. *)
Definition other_entries (total_key : string) (d : dict) : dict :=
  filter (fun entry => negb (String.eqb (fst entry) total_key)) d.

Definition sum_amounts (d : dict) : Q :=
  fold_left (fun acc entry => acc + snd entry) d 0.

(** The loops of [size_chp_units] keep this: what is installed plus what
    remains to cover is the target. *)
Definition covers (target : Q) (st : chp_state) : Prop :=
  inject_Z (sum (fst st)) + snd st == target.

(** The sum of the discount factors [1 / (1 + rate)^year] over [years]. *)
Definition discount_factor_sum (rate : Q) (years : list Z) : Q :=
  fold_right (fun year acc => / (1 + rate) ^ year + acc) 0 years.

(** The net present value of a cash-flow series at [rate], as a number: the
    flow of year 0 plus the later flows, each divided by [(1 + rate)^year]. *)
Fixpoint discounted (rate : Q) (flows : list Q) (year : Z) (npv : Q) : Q :=
  match flows with
  | [] => npv
  | cf :: rest => discounted rate rest (year + 1) (npv + cf / (1 + rate) ^ year)
  end.

Definition npv_value (cash_flows : list Q) (rate : Q) : Q :=
  discounted rate (tl cash_flows) 1 (hd 0 cash_flows).




(** The cumulative cash flow after the flows [flows[0..j]] have been added
    to [cumulative_cf]. *)
Fixpoint cumulative_after (cumulative_cf : Q) (flows : list Q) (j : nat) : Q :=
  match flows, j with
  | [], _ => cumulative_cf
  | cf :: _, O => cumulative_cf + cf
  | cf :: rest, S j' => cumulative_after (cumulative_cf + cf) rest j'
  end.

(** The cumulative cash flow of a series at the end of [year]: the flows of
    the years [0..year] added up. *)
Definition cumulative_cash_flow (cash_flows : list Q) (year : Z) : Q :=
  match Z.to_nat year with
  | O => hd 0 cash_flows
  | S j => cumulative_after (hd 0 cash_flows) (tl cash_flows) j
  end.

(** The keys of a dictionary, in order. *)
Definition keys {V : Type} (d : list (string * V)) : list string := map fst d.

(** What is still owed on a loan after [years] annual payments, interest
    being added to the balance before each payment. *)
Fixpoint loan_balance (debt rate payment : Q) (years : nat) : Q :=
  match years with
  | O => debt
  | S n => loan_balance debt rate payment n * (1 + rate) - payment
  end.

(** Units taken from the catalog, and units listed largest first. *)
Definition in_catalog (units : list Z) : Prop :=
  Forall (fun unit => In unit available_sizes) units.

Definition descending (units : list Z) : Prop :=
  StronglySorted (fun a b => (b <= a)%Z) units.

(** The flows of a list added up. *)
Definition total_flow (flows : list Q) : Q := fold_right Qplus 0 flows.

(** * Properties *)

(** ** Feedstock yields and totals *)

(** C1, evaluated on the code.  A "Meat" row whose quantity is 0 has energy
    content 0 and total cost 0, and its [cost_per_gj] and [cost_per_mwh] are
    NaN; the same row with its quantity kept and a BMP of 0 has energy
    content 0 and a [cost_per_gj] of +infinity.  Neither is 0. *)
Theorem calculate_biogas_yield_zero_energy :
  map (fun r => (energy_content_gj r, total_cost r,
                 PrimFloat.is_nan (cost_per_gj r),
                 PrimFloat.is_nan (cost_per_mwh r),
                 PrimFloat.eqb (cost_per_gj r) 0%float))
      (calculate_biogas_yield [with_quantity 0 meat])
    = [(0%float, 0%float, true, true, false)]
  /\
  map (fun r => (energy_content_gj r, cost_per_gj r, cost_per_mwh r))
      (calculate_biogas_yield [with_bmp 0 meat])
    = [(0%float, infinity, infinity)].
Proof.
  split; vm_compute; reflexivity.
Qed.

(** C7.  The totals of a frame with no rows are all zero, the two weighted
    average costs included; this holds in particular for the frame that
    [calculate_biogas_yield] returns on no rows. *)
Theorem get_total_metrics_empty :
  get_total_metrics [] = (mkTotals 0 0 0 0 0 0 0 0 0 0 0)%float
  /\ get_total_metrics (calculate_biogas_yield []) = get_total_metrics [].
Proof.
  split; vm_compute; reflexivity.
Qed.

(** ** Tests on exact numbers *)

Lemma Qlt_bool_iff (x y : Q) : Qlt_bool x y = true <-> x < y.
Proof.
  unfold Qlt_bool. rewrite negb_true_iff.
  split; intro H.
  - apply Qnot_le_lt. intro Hle. apply Qle_bool_iff in Hle. congruence.
  - destruct (Qle_bool y x) eqn:E; [|reflexivity].
    apply Qle_bool_iff in E. exfalso. apply (Qlt_not_le _ _ H E).
Qed.

Lemma Qlt_bool_false_iff (x y : Q) : Qlt_bool x y = false <-> y <= x.
Proof.
  unfold Qlt_bool. rewrite negb_false_iff. apply Qle_bool_iff.
Qed.

Lemma Qle_bool_false_iff (x y : Q) : Qle_bool x y = false <-> y < x.
Proof.
  rewrite <- Qlt_bool_iff. unfold Qlt_bool.
  destruct (Qle_bool x y); simpl; split; congruence.
Qed.

Lemma Qeq_bool_false_iff (x y : Q) : Qeq_bool x y = false <-> ~ x == y.
Proof.
  split.
  - intros H Heq. apply Qeq_bool_iff in Heq. congruence.
  - intro H. destruct (Qeq_bool x y) eqn:E; [|reflexivity].
    apply Qeq_bool_iff in E. contradiction.
Qed.

(** ** CHP unit sizing *)

(** C9.  For a target power capacity of 0 the configuration has no unit, a
    unit count of 0, an installed capacity of 0 and a utilization of 0. *)
Theorem size_chp_units_zero :
  size_chp_units 0 = mkChp [] 0 0 0.
Proof.
  vm_compute. reflexivity.
Qed.

(** ** Cost breakdowns *)

(** C2.  In the breakdown of [calculate_capex] the entry "Total CAPEX" is the
    sum of the other entries, for every digester volume, output type and CHP
    capacity.  [calculate_opex] returns a breakdown whenever it is given the
    breakdown that [calculate_capex] built for the same output type, and in
    every breakdown that it returns the entry "Total OPEX" is the sum of the
    other entries. *)
Theorem breakdown_totals :
  (forall (digester_volume : Q) (output_type : string) (chp_capacity : Q),
      exists total,
        getitem (calculate_capex digester_volume output_type chp_capacity)
                "Total CAPEX" = Ok total
        /\ total == sum_amounts
                      (other_entries "Total CAPEX"
                         (calculate_capex digester_volume output_type chp_capacity)))
  /\
  (forall (total_feedstock digester_volume : Q) (output_type : string)
          (chp_capacity capex_volume capex_chp_capacity : Q),
      exists opex,
        calculate_opex total_feedstock digester_volume output_type
          (calculate_capex capex_volume output_type capex_chp_capacity)
          chp_capacity = Ok opex)
  /\
  (forall (total_feedstock digester_volume : Q) (output_type : string)
          (capex : dict) (chp_capacity : Q) (opex : dict),
      calculate_opex total_feedstock digester_volume output_type capex
        chp_capacity = Ok opex ->
      exists total,
        getitem opex "Total OPEX" = Ok total
        /\ total == sum_amounts (other_entries "Total OPEX" opex)).
Proof.
  split; [|split].
  - intros v ot c. unfold calculate_capex.
    destruct (String.eqb ot "biogas"); cbn -[Qplus Qmult Qdiv];
      (eexists; split; [reflexivity|]);
      unfold sum_amounts; cbn -[Qplus Qmult Qdiv]; ring.
  - intros tf v ot c cv cc. unfold calculate_opex, calculate_capex.
    destruct (String.eqb ot "biogas"); cbn -[Qplus Qmult Qdiv Qlt_bool];
      eexists; reflexivity.
  - intros tf v ot capex c opex. unfold calculate_opex.
    destruct (getitem capex "Total CAPEX") as [t|e]; cbn -[Qplus Qmult Qdiv Qlt_bool];
      [|discriminate].
    destruct (String.eqb ot "biogas").
    + destruct (getitem capex "Biogas Upgrading System") as [u|e];
        cbn -[Qplus Qmult Qdiv Qlt_bool]; [|discriminate].
      intro H. injection H as <-. cbn -[Qplus Qmult Qdiv Qlt_bool].
      eexists; split; [reflexivity|].
      unfold sum_amounts; cbn -[Qplus Qmult Qdiv Qlt_bool]; ring.
    + cbn -[Qplus Qmult Qdiv Qlt_bool].
      intro H. injection H as <-. cbn -[Qplus Qmult Qdiv Qlt_bool].
      eexists; split; [reflexivity|].
      unfold sum_amounts; cbn -[Qplus Qmult Qdiv Qlt_bool]; ring.
Qed.

Lemma breakdown_totals_witness :
  exists opex,
    calculate_opex 100 1000 "chp" (calculate_capex 1000 "chp" 10) 10 = Ok opex
    /\ exists total,
         getitem opex "Total OPEX" = Ok total
         /\ total == sum_amounts (other_entries "Total OPEX" opex).
Proof.
  eexists. split.
  - vm_compute. reflexivity.
  - apply (proj2 (proj2 breakdown_totals) 100 1000 "chp"%string
             (calculate_capex 1000 "chp" 10) 10).
    vm_compute. reflexivity.
Defined.

(** ** Levelized cost of energy *)

(** C8.  With an annual energy output that is zero or negative,
    [calculate_lcoe] returns 0, whatever the two breakdowns (also when they
    lack their totals), the lifetime and the discount rate are. *)
Theorem calculate_lcoe_no_energy (capex opex : dict) (annual_energy_output : Q)
    (project_lifetime : Z) (discount_rate : Q) :
  annual_energy_output <= 0 ->
  calculate_lcoe capex opex annual_energy_output project_lifetime discount_rate
    = Ok 0.
Proof.
  intro H. unfold calculate_lcoe.
  apply Qle_bool_iff in H. rewrite H. reflexivity.
Qed.

Lemma calculate_lcoe_no_energy_witness :
  0 <= 0 /\ calculate_lcoe [] [] 0 20 (-1) = Ok 0.
Proof.
  split.
  - apply Qle_refl.
  - apply (calculate_lcoe_no_energy [] [] 0 20 (-1)). apply Qle_refl.
Defined.

(** ** The greedy cover of [size_chp_units] *)

Lemma sum_app_one (units : list Z) (size : Z) :
  sum (units ++ [size]) = (sum units + size)%Z.
Proof.
  unfold sum. rewrite fold_left_app. reflexivity.
Qed.

Lemma add_units_covers (target : Q) (fuel : nat) (size : Z) (st : chp_state) :
  covers target st -> covers target (add_units fuel size st).
Proof.
  revert st. induction fuel as [|fuel IH]; intros [units remaining] H; simpl.
  - exact H.
  - destruct (Qle_bool (inject_Z size * 0.8) remaining); [|exact H].
    apply IH. unfold covers in *. simpl in *.
    rewrite sum_app_one, inject_Z_plus. rewrite <- H. ring.
Qed.

(** With enough iterations the [while] loop ends on its own test. *)
Lemma add_units_exit (fuel : nat) (size : Z) (st : chp_state) :
  0 < inject_Z size ->
  snd st < inject_Z size * 0.8 + inject_Z size * inject_Z (Z.of_nat fuel) ->
  snd (add_units fuel size st) < inject_Z size * 0.8.
Proof.
  intro Hsize. revert st.
  induction fuel as [|fuel IH]; intros [units remaining] H.
  - cbn [add_units snd] in *.
    change (inject_Z (Z.of_nat 0)) with 0 in H. lra.
  - cbn [add_units].
    destruct (Qle_bool (inject_Z size * 0.8) remaining) eqn:E.
    + apply IH. cbn [snd] in *.
      rewrite Nat2Z.inj_succ in H. unfold Z.succ in H.
      rewrite inject_Z_plus in H. change (inject_Z 1) with 1 in H.
      generalize dependent (inject_Z (Z.of_nat fuel)).
      generalize dependent (inject_Z size). intros. nra.
    + apply Qle_bool_false_iff in E. exact E.
Qed.

Lemma add_units_fuel_enough (size : Z) (st : chp_state) :
  0 < inject_Z size ->
  snd st < inject_Z size * 0.8
           + inject_Z size * inject_Z (Z.of_nat (add_units_fuel size st)).
Proof.
  intro Hsize. unfold add_units_fuel.
  set (r := snd st / inject_Z size).
  assert (Hr : snd st == r * inject_Z size).
  { unfold r. field. lra. }
  assert (Hfl : r < inject_Z (Qfloor r + 1)) by apply Qlt_floor.
  assert (Hnat : inject_Z (Qfloor r + 1)
                 <= inject_Z (Z.of_nat (S (Z.to_nat (Qfloor r))))).
  { rewrite <- Zle_Qle. lia. }
  assert (Hlt : r < inject_Z (Z.of_nat (S (Z.to_nat (Qfloor r))))) by lra.
  rewrite Hr. nra.
Qed.

Lemma greedy_fill_covers (target : Q) (sizes : list Z) (st : chp_state) :
  covers target st -> covers target (greedy_fill sizes st).
Proof.
  unfold greedy_fill. revert st.
  induction sizes as [|size sizes IH]; intros st H; cbn [fold_left].
  - exact H.
  - apply IH. apply add_units_covers. exact H.
Qed.

Lemma greedy_fill_last (sizes : list Z) (size : Z) (st : chp_state) :
  0 < inject_Z size ->
  snd (greedy_fill (sizes ++ [size]) st) < inject_Z size * 0.8.
Proof.
  intro Hsize. unfold greedy_fill. rewrite fold_left_app. cbn [fold_left].
  apply add_units_exit; [exact Hsize|].
  apply add_units_fuel_enough. exact Hsize.
Qed.

(** ** Python arithmetic that does not raise *)

Lemma py_div_ok (a b : Q) : ~ b == 0 -> py_div a b = Ok (a / b).
Proof.
  intro H. unfold py_div.
  apply Qeq_bool_false_iff in H. rewrite H. reflexivity.
Qed.

Lemma py_pow_ok (b : Q) (n : Z) : ~ b == 0 -> py_pow b n = Ok (b ^ n).
Proof.
  intro H. unfold py_pow.
  apply Qeq_bool_false_iff in H. rewrite H. reflexivity.
Qed.

Lemma Qpower_neq_1 (q : Q) (n : Z) : 1 < q -> n <> 0%Z -> ~ q ^ n == 1.
Proof.
  intros Hq Hn Heq.
  destruct (Z.lt_total n 0) as [Hneg|[Hz|Hpos]]; [|contradiction|].
  - pose proof (Qpower_lt_compat_l q n 0 Hneg Hq) as H.
    rewrite Heq in H. exact (Qlt_irrefl _ H).
  - pose proof (Qpower_lt_compat_l q 0 n Hpos Hq) as H.
    rewrite Heq in H. exact (Qlt_irrefl _ H).
Qed.

(** ** Debt service *)

(** C6, as the code has it.  With a positive interest rate the annual debt
    service is [debt * rate * (1+rate)^term / ((1+rate)^term - 1)]; with a
    rate of 0 it is [debt / term]; both for a term other than 0, where
    neither quotient has a zero divisor.  For a debt of 700,000 at 5% over 10
    years the payment lies between 90,653 and 90,654. *)
Theorem annual_debt_service_formula :
  (forall (debt_amount debt_interest : Q) (debt_term : Z),
      0 < debt_interest -> debt_term <> 0%Z ->
      exists payment,
        annual_debt_service_of debt_amount debt_interest debt_term = Ok payment
        /\ payment == debt_amount * debt_interest * (1 + debt_interest) ^ debt_term
                      / ((1 + debt_interest) ^ debt_term - 1))
  /\
  (forall (debt_amount debt_interest : Q) (debt_term : Z),
      debt_interest == 0 -> debt_term <> 0%Z ->
      exists payment,
        annual_debt_service_of debt_amount debt_interest debt_term = Ok payment
        /\ payment == debt_amount / inject_Z debt_term)
  /\
  (exists payment,
      annual_debt_service_of 700000 0.05 10 = Ok payment
      /\ 90653 < payment < 90654).
Proof.
  split; [|split].
  - intros debt rate term Hrate Hterm. unfold annual_debt_service_of.
    apply Qlt_bool_iff in Hrate as Hb. rewrite Hb.
    rewrite py_pow_ok by lra. cbn [bind].
    rewrite py_div_ok.
    + eexists. split; reflexivity.
    + intro H. apply (Qpower_neq_1 (1 + rate) term); [lra|exact Hterm|lra].
  - intros debt rate term Hrate Hterm. unfold annual_debt_service_of.
    assert (Hb : Qlt_bool 0 rate = false) by (apply Qlt_bool_false_iff; lra).
    rewrite Hb. rewrite py_div_ok.
    + eexists. split; reflexivity.
    + intro H. apply Hterm.
      exact (proj1 (inject_Z_injective term 0) H).
  - eexists. split; [vm_compute; reflexivity|].
    split; vm_compute; reflexivity.
Qed.

Lemma annual_debt_service_formula_witness :
  0 < 0.05 /\ 10%Z <> 0%Z /\
  exists payment,
    annual_debt_service_of 700000 0.05 10 = Ok payment
    /\ payment == 700000 * 0.05 * (1 + 0.05) ^ 10 / ((1 + 0.05) ^ 10 - 1).
Proof.
  split; [reflexivity|]. split; [discriminate|].
  apply (proj1 annual_debt_service_formula 700000 0.05 10%Z).
  - reflexivity.
  - discriminate.
Defined.

(** C6 as stated fails on its example: the payment for a debt of 700,000 at
    5% over 10 years is not within one unit of 90,663; it is more than 9
    below it. *)
Lemma annual_debt_service_not_90663 :
  exists payment,
    annual_debt_service_of 700000 0.05 10 = Ok payment
    /\ ~ Qabs (payment - 90663) <= 1
    /\ payment < 90663 - 9.
Proof.
  eexists. split; [vm_compute; reflexivity|].
  split.
  - vm_compute. intro H. apply H. reflexivity.
  - vm_compute. reflexivity.
Qed.

(** ** Levelized cost of energy: monotonicity *)

Lemma present_value_spec (amount rate : Q) (years : list Z) (pv : Q) :
  ~ 1 + rate == 0 ->
  exists v,
    present_value amount rate years pv = Ok v
    /\ v == pv + amount * discount_factor_sum rate years.
Proof.
  intro Hrate. revert pv.
  induction years as [|year years IH]; intro pv; cbn [present_value].
  - exists pv. split; [reflexivity|]. cbn [discount_factor_sum fold_right]. ring.
  - rewrite py_pow_ok by exact Hrate. cbn [bind].
    rewrite py_div_ok by (apply Qpower_not_0; exact Hrate). cbn [bind].
    destruct (IH (pv + amount / (1 + rate) ^ year)) as (v & Hv & Heq).
    exists v. split; [exact Hv|].
    rewrite Heq. cbn [discount_factor_sum fold_right].
    fold (discount_factor_sum rate years).
    unfold Qdiv. ring.
Qed.

Lemma discount_factor_sum_nonneg (rate : Q) (years : list Z) :
  0 < 1 + rate -> 0 <= discount_factor_sum rate years.
Proof.
  intro Hrate. induction years as [|year years IH];
    cbn [discount_factor_sum fold_right].
  - apply Qle_refl.
  - fold (discount_factor_sum rate years).
    pose proof (Qinv_lt_0_compat _ (Qpower_0_lt (1 + rate) year Hrate)).
    lra.
Qed.

Lemma discount_factor_sum_pos (rate : Q) (year : Z) (years : list Z) :
  0 < 1 + rate -> 0 < discount_factor_sum rate (year :: years).
Proof.
  intro Hrate. cbn [discount_factor_sum fold_right].
  fold (discount_factor_sum rate years).
  pose proof (Qinv_lt_0_compat _ (Qpower_0_lt (1 + rate) year Hrate)).
  pose proof (discount_factor_sum_nonneg rate years Hrate).
  lra.
Qed.

Lemma range_nonempty (lifetime : Z) :
  (1 <= lifetime)%Z ->
  exists year years, range 1 (lifetime + 1) = year :: years.
Proof.
  intro H. unfold range.
  replace (lifetime + 1 - 1)%Z with lifetime by lia.
  destruct (Z.to_nat lifetime) as [|n] eqn:E; [lia|].
  cbn [seq map]. eauto.
Qed.

(** The value of [calculate_lcoe] on positive energy: discounted costs over
    discounted energy. *)
Lemma calculate_lcoe_value (capex opex : dict) (total_capex annual_opex : Q)
    (annual_energy_output : Q) (project_lifetime : Z) (discount_rate : Q) :
  getitem capex "Total CAPEX" = Ok total_capex ->
  getitem opex "Total OPEX" = Ok annual_opex ->
  0 < annual_energy_output -> (1 <= project_lifetime)%Z -> 0 <= discount_rate ->
  exists lcoe factors,
    calculate_lcoe capex opex annual_energy_output project_lifetime discount_rate
      = Ok lcoe
    /\ factors = discount_factor_sum discount_rate (range 1 (project_lifetime + 1))
    /\ 0 < factors
    /\ lcoe == (total_capex + annual_opex * factors)
               / (annual_energy_output * factors).
Proof.
  intros Hc Ho He Hl Hr. unfold calculate_lcoe.
  assert (Hb : Qle_bool annual_energy_output 0 = false)
    by (apply Qle_bool_false_iff; exact He).
  rewrite Hb, Hc, Ho. cbn [bind].
  assert (Hrate : ~ 1 + discount_rate == 0) by lra.
  destruct (present_value_spec annual_opex discount_rate
              (range 1 (project_lifetime + 1)) total_capex Hrate)
    as (pv_costs & Hcosts & Ecosts).
  destruct (present_value_spec annual_energy_output discount_rate
              (range 1 (project_lifetime + 1)) 0 Hrate)
    as (pv_energy & Henergy & Eenergy).
  rewrite Hcosts, Henergy. cbn [bind].
  destruct (range_nonempty project_lifetime Hl) as (y & ys & Hrange).
  assert (Hpos : 0 < discount_factor_sum discount_rate
                       (range 1 (project_lifetime + 1))).
  { rewrite Hrange. apply discount_factor_sum_pos. lra. }
  set (factors := discount_factor_sum discount_rate
                    (range 1 (project_lifetime + 1))) in *.
  assert (Henergy_pos : 0 < pv_energy).
  { rewrite Eenergy. rewrite Qplus_0_l.
    apply Qmult_lt_0_compat; assumption. }
  apply Qlt_bool_iff in Henergy_pos as Hb'. rewrite Hb'.
  exists (pv_costs / pv_energy), factors.
  split; [reflexivity|]. split; [reflexivity|]. split; [exact Hpos|].
  rewrite Ecosts, Eenergy. rewrite Qplus_0_l. reflexivity.
Qed.

Lemma ratio_monotone (c1 c2 o1 o2 e1 e2 f : Q) :
  0 < f -> 0 <= c1 -> 0 <= o1 -> 0 < e2 ->
  c1 <= c2 -> o1 <= o2 -> e2 <= e1 ->
  (c1 + o1 * f) / (e1 * f) <= (c2 + o2 * f) / (e2 * f).
Proof.
  intros Hf Hc Ho He Hcc Hoo Hee.
  assert (H1 : 0 < e1 * f) by (apply Qmult_lt_0_compat; lra).
  assert (H2 : 0 < e2 * f) by (apply Qmult_lt_0_compat; lra).
  apply Qle_shift_div_l; [exact H2|].
  assert (E : (c1 + o1 * f) / (e1 * f) * (e2 * f)
              == (c1 + o1 * f) * (e2 * f) / (e1 * f)) by (field; lra).
  rewrite E. apply Qle_shift_div_r; [exact H1|].
  assert (Hn1 : 0 <= c1 + o1 * f) by nra.
  assert (Hn2 : c1 + o1 * f <= c2 + o2 * f) by nra.
  assert (Hn3 : e2 * f <= e1 * f) by nra.
  apply Qle_trans with ((c1 + o1 * f) * (e1 * f)).
  - rewrite !(Qmult_comm (c1 + o1 * f)).
    apply Qmult_le_compat_r; assumption.
  - apply Qmult_le_compat_r; [exact Hn2 | lra].
Qed.

(** More cost and less energy give a higher levelized cost. *)
Lemma calculate_lcoe_monotone_joint (capex1 capex2 opex1 opex2 : dict)
    (c1 c2 o1 o2 e1 e2 : Q) (project_lifetime : Z) (discount_rate : Q) :
  getitem capex1 "Total CAPEX" = Ok c1 -> getitem capex2 "Total CAPEX" = Ok c2 ->
  getitem opex1 "Total OPEX" = Ok o1 -> getitem opex2 "Total OPEX" = Ok o2 ->
  0 <= c1 -> 0 <= o1 -> 0 < e2 ->
  (1 <= project_lifetime)%Z -> 0 <= discount_rate ->
  c1 <= c2 -> o1 <= o2 -> e2 <= e1 ->
  exists lcoe1 lcoe2,
    calculate_lcoe capex1 opex1 e1 project_lifetime discount_rate = Ok lcoe1
    /\ calculate_lcoe capex2 opex2 e2 project_lifetime discount_rate = Ok lcoe2
    /\ lcoe1 <= lcoe2.
Proof.
  intros Hc1 Hc2 Ho1 Ho2 Hc Ho He Hl Hr Hcc Hoo Hee.
  assert (He1 : 0 < e1) by lra.
  destruct (calculate_lcoe_value capex1 opex1 c1 o1 e1 project_lifetime
              discount_rate Hc1 Ho1 He1 Hl Hr) as (l1 & f1 & Hl1 & Hf1 & Hpos & E1).
  destruct (calculate_lcoe_value capex2 opex2 c2 o2 e2 project_lifetime
              discount_rate Hc2 Ho2 He Hl Hr) as (l2 & f2 & Hl2 & Hf2 & _ & E2).
  exists l1, l2. split; [exact Hl1|]. split; [exact Hl2|].
  rewrite E1, E2. subst f2. rewrite <- Hf1.
  apply ratio_monotone; assumption.
Qed.

(** C4.  For positive CAPEX total, OPEX total and annual energy output, a
    lifetime of at least one year and a discount rate that is not negative,
    [calculate_lcoe] returns a value that does not decrease when the CAPEX
    total grows, does not decrease when the OPEX total grows, and does not
    increase when the annual energy output grows, the other inputs being
    fixed. *)
Theorem calculate_lcoe_monotone :
  (forall (capex1 capex2 opex : dict) (c1 c2 o energy : Q)
          (project_lifetime : Z) (discount_rate : Q),
      getitem capex1 "Total CAPEX" = Ok c1 ->
      getitem capex2 "Total CAPEX" = Ok c2 ->
      getitem opex "Total OPEX" = Ok o ->
      0 < c1 -> 0 < o -> 0 < energy ->
      (1 <= project_lifetime)%Z -> 0 <= discount_rate ->
      c1 <= c2 ->
      exists lcoe1 lcoe2,
        calculate_lcoe capex1 opex energy project_lifetime discount_rate = Ok lcoe1
        /\ calculate_lcoe capex2 opex energy project_lifetime discount_rate = Ok lcoe2
        /\ lcoe1 <= lcoe2)
  /\
  (forall (capex opex1 opex2 : dict) (c o1 o2 energy : Q)
          (project_lifetime : Z) (discount_rate : Q),
      getitem capex "Total CAPEX" = Ok c ->
      getitem opex1 "Total OPEX" = Ok o1 ->
      getitem opex2 "Total OPEX" = Ok o2 ->
      0 < c -> 0 < o1 -> 0 < energy ->
      (1 <= project_lifetime)%Z -> 0 <= discount_rate ->
      o1 <= o2 ->
      exists lcoe1 lcoe2,
        calculate_lcoe capex opex1 energy project_lifetime discount_rate = Ok lcoe1
        /\ calculate_lcoe capex opex2 energy project_lifetime discount_rate = Ok lcoe2
        /\ lcoe1 <= lcoe2)
  /\
  (forall (capex opex : dict) (c o energy1 energy2 : Q)
          (project_lifetime : Z) (discount_rate : Q),
      getitem capex "Total CAPEX" = Ok c ->
      getitem opex "Total OPEX" = Ok o ->
      0 < c -> 0 < o -> 0 < energy1 ->
      (1 <= project_lifetime)%Z -> 0 <= discount_rate ->
      energy1 <= energy2 ->
      exists lcoe1 lcoe2,
        calculate_lcoe capex opex energy1 project_lifetime discount_rate = Ok lcoe1
        /\ calculate_lcoe capex opex energy2 project_lifetime discount_rate = Ok lcoe2
        /\ lcoe2 <= lcoe1).
Proof.
  split; [|split].
  - intros capex1 capex2 opex c1 c2 o energy L r Hc1 Hc2 Ho Hc Hop He Hl Hr Hle.
    apply (calculate_lcoe_monotone_joint capex1 capex2 opex opex c1 c2 o o
             energy energy L r); try assumption; lra.
  - intros capex opex1 opex2 c o1 o2 energy L r Hc Ho1 Ho2 Hcp Hop He Hl Hr Hle.
    apply (calculate_lcoe_monotone_joint capex capex opex1 opex2 c c o1 o2
             energy energy L r); try assumption; lra.
  - intros capex opex c o energy1 energy2 L r Hc Ho Hcp Hop He Hl Hr Hle.
    destruct (calculate_lcoe_monotone_joint capex capex opex opex c c o o
                energy2 energy1 L r) as (l2 & l1 & H2 & H1 & Hlcoe);
      try assumption; try lra.
    exists l1, l2. split; [exact H1|]. split; [exact H2|exact Hlcoe].
Qed.

Lemma calculate_lcoe_monotone_witness :
  exists lcoe1 lcoe2,
    calculate_lcoe [("Total CAPEX"%string, 1000)] [("Total OPEX"%string, 100)]
      50 2 0.08 = Ok lcoe1
    /\ calculate_lcoe [("Total CAPEX"%string, 1000)] [("Total OPEX"%string, 100)]
         80 2 0.08 = Ok lcoe2
    /\ lcoe2 <= lcoe1.
Proof.
  apply (proj2 (proj2 calculate_lcoe_monotone)
           [("Total CAPEX"%string, 1000)] [("Total OPEX"%string, 100)]
           1000 100 50 80 2%Z 0.08).
  - reflexivity.
  - reflexivity.
  - reflexivity.
  - reflexivity.
  - reflexivity.
  - lia.
  - discriminate.
  - discriminate.
Defined.

(** ** Net present value *)

Lemma py_div_inv (a b v : Q) : py_div a b = Ok v -> v = a / b.
Proof.
  unfold py_div. destruct (Qeq_bool b 0); [discriminate|].
  intro H. injection H as <-. reflexivity.
Qed.

Lemma py_pow_inv (b : Q) (n : Z) (v : Q) : py_pow b n = Ok v -> v = b ^ n.
Proof.
  unfold py_pow. destruct (Qeq_bool b 0 && (n <? 0)%Z); [discriminate|].
  intro H. injection H as <-. reflexivity.
Qed.

(** When the discounting loop returns, it returns the discounted sum. *)
Lemma discount_flows_inv (rate : Q) (flows : list Q) (year : Z) (npv v : Q) :
  discount_flows rate flows year npv = Ok v ->
  v = discounted rate flows year npv.
Proof.
  revert year npv.
  induction flows as [|cf rest IH]; intros year npv H; cbn [discount_flows] in H.
  - injection H as <-. reflexivity.
  - destruct (py_pow (1 + rate) year) as [factor|e] eqn:Ep; [|discriminate].
    cbn [bind] in H.
    destruct (py_div cf factor) as [term|e] eqn:Ed; [|discriminate].
    cbn [bind] in H.
    apply py_pow_inv in Ep. apply py_div_inv in Ed. subst factor term.
    cbn [discounted]. apply IH. exact H.
Qed.

(** It returns whenever [1 + rate] is not zero. *)
Lemma discount_flows_ok (rate : Q) (flows : list Q) (year : Z) (npv : Q) :
  ~ 1 + rate == 0 ->
  discount_flows rate flows year npv = Ok (discounted rate flows year npv).
Proof.
  intro Hrate. revert year npv.
  induction flows as [|cf rest IH]; intros year npv;
    cbn [discount_flows discounted].
  - reflexivity.
  - rewrite py_pow_ok by exact Hrate. cbn [bind].
    rewrite py_div_ok by (apply Qpower_not_0; exact Hrate). cbn [bind].
    apply IH.
Qed.

Lemma npv_of_inv (cash_flows : list Q) (rate v : Q) :
  npv_of cash_flows rate = Ok v -> v = npv_value cash_flows rate.
Proof.
  apply discount_flows_inv.
Qed.

Lemma npv_of_ok (cash_flows : list Q) (rate : Q) :
  ~ 1 + rate == 0 -> npv_of cash_flows rate = Ok (npv_value cash_flows rate).
Proof.
  apply discount_flows_ok.
Qed.

(** ** The IRR search *)




(** The loop returns: the rate never comes down to [-1]. *)
Lemma irr_loop_ok (cash_flows : list Q) (iterations : nat) (st : irr_state) :
  direction st = 1%Z \/ direction st = (-1)%Z ->
  0 <= step st ->
  -1 < irr st - step st * inject_Z (Z.of_nat iterations) ->
  exists r, irr_loop iterations cash_flows st = Ok r.
Proof.
  revert st.
  induction iterations as [|n IH]; intros [rate stp dir] Hdir Hstep Hlow;
    cbn [irr_loop irr step direction] in *.
  - eauto.
  - rewrite Nat2Z.inj_succ in Hlow. unfold Z.succ in Hlow.
    rewrite inject_Z_plus in Hlow. change (inject_Z 1) with 1 in Hlow.
    assert (Hdn : 0 <= inject_Z (Z.of_nat n)).
    { change 0 with (inject_Z 0). rewrite <- Zle_Qle. lia. }
    assert (Hrate : -1 < rate) by nra.
    rewrite npv_of_ok by lra. cbn [bind].
    destruct (Qlt_bool (Qabs (npv_value cash_flows rate)) 1); [eauto|].
    assert (Ehalf : stp / 2 == stp * (1 # 2)) by field.
    destruct (Qlt_bool (npv_value cash_flows rate * inject_Z dir) 0);
      cbn [irr step direction]; apply IH; cbn [irr step direction];
      try rewrite Ehalf.
    + destruct Hdir as [-> | ->]; auto.
    + lra.
    + destruct Hdir as [-> | ->]; cbn [Z.opp].
      * change (inject_Z (-1)) with (-1). nra.
      * change (inject_Z 1) with 1. nra.
    + exact Hdir.
    + exact Hstep.
    + destruct Hdir as [-> | ->].
      * change (inject_Z 1) with 1. nra.
      * change (inject_Z (-1)) with (-1). nra.
Qed.


Lemma calculate_irr_ok (cash_flows : list Q) :
  exists r, calculate_irr cash_flows = Ok r.
Proof.
  unfold calculate_irr. apply irr_loop_ok; cbn [irr step direction].
  - left. reflexivity.
  - discriminate.
  - reflexivity.
Qed.



(** ** The payback loop *)

Lemma payback_loop_fst (flows : list Q) (year : Z) (c : Q) (p : Z) :
  fst (payback_loop flows year c p)
    = cumulative_after c flows (pred (List.length flows)).
Proof.
  revert year c p.
  induction flows as [|cf rest IH]; intros year c p; cbn [payback_loop].
  - reflexivity.
  - rewrite IH. destruct rest; reflexivity.
Qed.

(** Once set, the payback period is kept. *)
Lemma payback_loop_kept (flows : list Q) (year : Z) (c : Q) (p : Z) :
  p <> 0%Z -> snd (payback_loop flows year c p) = p.
Proof.
  revert year c.
  induction flows as [|cf rest IH]; intros year c Hp; cbn [payback_loop].
  - reflexivity.
  - apply Z.eqb_neq in Hp as Hb. rewrite Hb, andb_false_r.
    apply IH. exact Hp.
Qed.

(** ** The payback loop on binary64 *)

(** A float below zero is not zero or above. *)
Lemma ltb_zero_not_leb (c : float) :
  (c <? 0)%float = true -> (0 <=? c)%float = false.
Proof.
  rewrite ltb_spec, leb_spec.
  change (Prim2SF 0%float) with (S754_zero false).
  destruct (Prim2SF c) as [s|s| |s m e]; cbn; try discriminate;
    destruct s; cbn; congruence.
Qed.

Lemma b64_payback_loop_fst (flows : list float) (year : Z) (c : float) (p : Z) :
  fst (Binary64.payback_loop flows year c p)
    = Binary64.cumulative_after c flows (pred (List.length flows)).
Proof.
  revert year c p.
  induction flows as [|cf rest IH]; intros year c p;
    cbn [Binary64.payback_loop].
  - reflexivity.
  - rewrite IH. destruct rest; reflexivity.
Qed.

(** Once set, the payback period is kept. *)
Lemma b64_payback_loop_kept (flows : list float) (year : Z) (c : float) (p : Z) :
  p <> 0%Z -> snd (Binary64.payback_loop flows year c p) = p.
Proof.
  revert year c.
  induction flows as [|cf rest IH]; intros year c Hp;
    cbn [Binary64.payback_loop].
  - reflexivity.
  - apply Z.eqb_neq in Hp as Hb. rewrite Hb, andb_false_r.
    apply IH. exact Hp.
Qed.

(** It is set at the first flow that brings the running sum to zero or
    above. *)
Lemma b64_payback_loop_first (flows : list float) (year : Z) (c : float)
    (j : nat) :
  (0 < year)%Z ->
  (j < List.length flows)%nat ->
  (0 <=? Binary64.cumulative_after c flows j)%float = true ->
  (forall i, (i < j)%nat ->
             (0 <=? Binary64.cumulative_after c flows i)%float = false) ->
  snd (Binary64.payback_loop flows year c 0) = (year + Z.of_nat j)%Z.
Proof.
  revert year c j.
  induction flows as [|cf rest IH]; intros year c j Hyear Hj Hge Hlt;
    cbn [Binary64.payback_loop List.length] in *.
  - lia.
  - destruct j as [|j].
    + cbn [Binary64.cumulative_after] in Hge.
      rewrite Hge. cbn [andb Z.eqb].
      rewrite b64_payback_loop_kept by lia. lia.
    + assert (Hneg : (0 <=? c + cf)%float = false) by (apply (Hlt 0%nat); lia).
      rewrite Hneg. cbn [andb].
      rewrite (IH (year + 1)%Z (c + cf)%float j).
      * lia.
      * lia.
      * lia.
      * destruct rest; exact Hge.
      * intros i Hi. specialize (Hlt (S i) ltac:(lia)).
        destruct rest; [cbn [List.length] in Hj; lia | exact Hlt].
Qed.

(** It stays unset while the running sum is not zero or above. *)
Lemma b64_payback_loop_none (flows : list float) (year : Z) (c : float) :
  (forall i, (i < List.length flows)%nat ->
             (0 <=? Binary64.cumulative_after c flows i)%float = false) ->
  snd (Binary64.payback_loop flows year c 0) = 0%Z.
Proof.
  revert year c.
  induction flows as [|cf rest IH]; intros year c Hlt;
    cbn [Binary64.payback_loop List.length] in *.
  - reflexivity.
  - assert (Hneg : (0 <=? c + cf)%float = false) by (apply (Hlt 0%nat); lia).
    rewrite Hneg. cbn [andb].
    apply IH. intros i Hi. specialize (Hlt (S i) ltac:(lia)).
    destruct rest; [cbn [List.length] in Hi; lia | exact Hlt].
Qed.

Lemma b64_cumulative_cash_flow_year (cash_flows : list float) (j : nat) :
  Binary64.cumulative_cash_flow cash_flows (Z.of_nat (S j))
    = Binary64.cumulative_after (hd 0%float cash_flows) (tl cash_flows) j.
Proof.
  unfold Binary64.cumulative_cash_flow. rewrite Nat2Z.id. reflexivity.
Qed.

Lemma b64_cash_flows_length (total_capex annual_opex annual_revenue : float)
    (project_lifetime : Z) (debt_percentage annual_debt_service : float)
    (debt_term : Z) (tax_rate : float) :
  List.length (tl (Binary64.cash_flows_of total_capex annual_opex
                     annual_revenue project_lifetime debt_percentage
                     annual_debt_service debt_term tax_rate))
    = Z.to_nat project_lifetime.
Proof.
  unfold Binary64.cash_flows_of, Binary64.build_cash_flows. cbn [app tl].
  rewrite length_map. unfold range. rewrite length_map, length_seq.
  f_equal. lia.
Qed.

(** C3.  In [calculate_financial_metrics], with the cumulative cash flow as
    the code computes it (the binary64 running sum that starts from the
    equity outlay of year 0), the payback period is the first year of
    [1..lifetime] at which the cumulative cash flow is zero or above; and
    when the cumulative cash flow is negative at every year of [1..lifetime]
    (and either there is such a year or the flow of year 0 is negative), the
    payback period is [lifetime + 1].  The two loops that compute it have no
    operation that can raise. *)
Theorem calculate_payback_binary64
    (total_capex annual_opex annual_revenue : float) (project_lifetime : Z)
    (debt_percentage annual_debt_service : float) (debt_term : Z)
    (tax_rate : float) (cash_flows : list float) :
  cash_flows = Binary64.cash_flows_of total_capex annual_opex annual_revenue
                 project_lifetime debt_percentage annual_debt_service
                 debt_term tax_rate ->
  (forall year,
      (1 <= year <= project_lifetime)%Z ->
      (0 <=? Binary64.cumulative_cash_flow cash_flows year)%float = true ->
      (forall j, (1 <= j < year)%Z ->
                 (0 <=? Binary64.cumulative_cash_flow cash_flows j)%float
                 = false) ->
      Binary64.calculate_payback cash_flows project_lifetime = year)
  /\
  ((1 <= project_lifetime)%Z
   \/ (Binary64.cumulative_cash_flow cash_flows 0 <? 0)%float = true ->
   (forall j, (1 <= j <= project_lifetime)%Z ->
              (Binary64.cumulative_cash_flow cash_flows j <? 0)%float = true) ->
   Binary64.calculate_payback cash_flows project_lifetime
     = (project_lifetime + 1)%Z).
Proof.
  intro Hflows.
  assert (Hlen : List.length (tl cash_flows) = Z.to_nat project_lifetime)
    by (rewrite Hflows; apply b64_cash_flows_length).
  clear Hflows. unfold Binary64.calculate_payback.
  destruct (Binary64.payback_loop (tl cash_flows) 1 (hd 0%float cash_flows) 0)
    as [c p] eqn:Eloop.
  assert (Hc : c = Binary64.cumulative_after (hd 0%float cash_flows)
                     (tl cash_flows) (pred (List.length (tl cash_flows)))).
  { rewrite <- b64_payback_loop_fst with (year := 1%Z) (p := 0%Z).
    rewrite Eloop. reflexivity. }
  assert (Hp : p = snd (Binary64.payback_loop (tl cash_flows) 1
                          (hd 0%float cash_flows) 0))
    by (rewrite Eloop; reflexivity).
  split.
  - intros year Hyear Hge Hlt.
    destruct (Z.to_nat year) as [|j] eqn:Ej; [lia|].
    assert (Ey : year = Z.of_nat (S j)) by lia.
    rewrite (b64_payback_loop_first (tl cash_flows) 1
               (hd 0%float cash_flows) j) in Hp.
    + assert (Hpy : p = year) by lia.
      assert (Hb : (p =? 0)%Z = false) by (apply Z.eqb_neq; lia).
      rewrite Hb. cbn [andb]. exact Hpy.
    + lia.
    + lia.
    + rewrite <- b64_cumulative_cash_flow_year, <- Ey. exact Hge.
    + intros i Hi. rewrite <- b64_cumulative_cash_flow_year.
      apply Hlt. lia.
  - intros Hstart Hlt.
    rewrite b64_payback_loop_none in Hp.
    + subst p. cbn [Z.eqb andb].
      assert (Hneg : (c <? 0)%float = true).
      { rewrite Hc.
        destruct (List.length (tl cash_flows)) as [|k] eqn:Ek.
        - cbn [pred].
          destruct Hstart as [Hl|H0]; [lia|].
          unfold Binary64.cumulative_cash_flow in H0. cbn [Z.to_nat] in H0.
          destruct (tl cash_flows); [exact H0 | discriminate Ek].
        - cbn [pred]. rewrite <- b64_cumulative_cash_flow_year.
          apply Hlt. lia. }
      rewrite Hneg. reflexivity.
    + intros i Hi. apply ltb_zero_not_leb.
      rewrite <- b64_cumulative_cash_flow_year. apply Hlt. lia.
Qed.

(** Ten yearly flows of 0.1 after an outlay of 1: the running sum of the
    code ends just below zero, and the payback period is 11. *)
Lemma calculate_payback_binary64_witness :
  Binary64.calculate_payback
    (Binary64.cash_flows_of 1 0 0.1 10 0 0 10 0)%float 10 = 11%Z.
Proof.
  apply (proj2 (calculate_payback_binary64 1 0 0.1 10 0 0 10 0
                  (Binary64.cash_flows_of 1 0 0.1 10 0 0 10 0)%float
                  eq_refl)).
  - left. lia.
  - intros j Hj.
    assert (Hcases : (j = 1 \/ j = 2 \/ j = 3 \/ j = 4 \/ j = 5 \/ j = 6
                      \/ j = 7 \/ j = 8 \/ j = 9 \/ j = 10)%Z) by lia.
    repeat (destruct Hcases as [-> | Hcases]; [vm_compute; reflexivity|]).
    subst j. vm_compute. reflexivity.
Defined.

(** ** calculate_financial_metrics as a whole *)

Lemma annual_debt_service_ok (debt_amount debt_interest : Q) (debt_term : Z) :
  debt_term <> 0%Z ->
  exists payment,
    annual_debt_service_of debt_amount debt_interest debt_term = Ok payment.
Proof.
  intro Hterm. unfold annual_debt_service_of.
  destruct (Qlt_bool 0 debt_interest) eqn:E.
  - apply Qlt_bool_iff in E.
    rewrite py_pow_ok by lra. cbn [bind].
    rewrite py_div_ok; [eauto|].
    intro H. apply (Qpower_neq_1 (1 + debt_interest) debt_term);
      [lra | exact Hterm | lra].
  - rewrite py_div_ok; [eauto|].
    intro H. apply Hterm. exact (proj1 (inject_Z_injective debt_term 0) H).
Qed.

(** What the returned metrics are made of: the cash-flow series of the
    function, its net present value, the IRR loop and the payback loop. *)
Lemma calculate_financial_metrics_inv (capex opex : dict) (annual_revenue : Q)
    (project_lifetime : Z) (discount_rate debt_percentage debt_interest : Q)
    (debt_term : Z) (tax_rate : Q) (m : financial_metrics) :
  calculate_financial_metrics capex opex annual_revenue project_lifetime
    discount_rate debt_percentage debt_interest debt_term tax_rate = Ok m ->
  exists cash_flows,
    cash_flows_of capex opex annual_revenue project_lifetime debt_percentage
      debt_interest debt_term tax_rate = Ok cash_flows
    /\ List.length (tl cash_flows) = Z.to_nat project_lifetime
    /\ npv_of cash_flows discount_rate = Ok (NPV m)
    /\ calculate_irr cash_flows = Ok (IRR m)
    /\ Payback_Period m = calculate_payback cash_flows project_lifetime.
Proof.
  unfold calculate_financial_metrics, cash_flows_of.
  destruct (getitem capex "Total CAPEX") as [c|e]; [|discriminate].
  destruct (getitem opex "Total OPEX") as [o|e]; [|discriminate].
  cbn [bind].
  destruct (annual_debt_service_of _ _ _) as [ads|e]; [|discriminate].
  cbn [bind].
  set (cfs := build_cash_flows _ _ _ _ _ _ _).
  destruct (npv_of cfs discount_rate) as [npv|e] eqn:Enpv; [|discriminate].
  cbn [bind].
  destruct (calculate_irr cfs) as [r|e] eqn:Eirr; [|discriminate].
  cbn [bind]. intro H. injection H as <-.
  exists cfs. cbn [NPV IRR Payback_Period].
  split; [reflexivity|].
  split; [|repeat split; first [assumption | reflexivity]].
  unfold cfs, build_cash_flows. cbn [app tl].
  rewrite length_map. unfold range. rewrite length_map, length_seq.
  f_equal. lia.
Qed.

(** The function returns when the two totals are there, the debt term is not
    zero and the discount rate is not -1. *)
Lemma calculate_financial_metrics_ok (capex opex : dict)
    (total_capex annual_opex annual_revenue : Q)
    (project_lifetime : Z) (discount_rate debt_percentage debt_interest : Q)
    (debt_term : Z) (tax_rate : Q) :
  getitem capex "Total CAPEX" = Ok total_capex ->
  getitem opex "Total OPEX" = Ok annual_opex ->
  debt_term <> 0%Z -> ~ discount_rate == -1 ->
  exists m,
    calculate_financial_metrics capex opex annual_revenue project_lifetime
      discount_rate debt_percentage debt_interest debt_term tax_rate = Ok m.
Proof.
  intros Hc Ho Hterm Hrate. unfold calculate_financial_metrics.
  rewrite Hc, Ho. cbn [bind].
  destruct (annual_debt_service_ok (total_capex * debt_percentage)
              debt_interest debt_term Hterm) as (ads & Hads).
  rewrite Hads. cbn [bind].
  rewrite npv_of_ok by lra. cbn [bind].
  set (cfs := build_cash_flows _ _ _ _ _ _ _).
  destruct (calculate_irr_ok cfs) as (r & Hr).
  rewrite Hr. cbn [bind]. eauto.
Qed.




(** * Further properties *)

(** ** Digester size *)

Lemma calculate_digester_size_value (total_vs_tonnes loading_rate : Q) :
  ~ loading_rate == 0 ->
  calculate_digester_size total_vs_tonnes loading_rate
    = Ok (total_vs_tonnes * 1000 / 365 / loading_rate).
Proof.
  intro H. unfold calculate_digester_size.
  rewrite py_div_ok by exact H. reflexivity.
Qed.

(** X2.  For positive loading rates the digester volume does not decrease
    when the volatile solids grow and does not increase when the loading
    rate grows (volatile solids not negative). *)
Theorem calculate_digester_size_monotone (vs1 vs2 rate1 rate2 : Q) :
  0 <= vs1 -> vs1 <= vs2 -> 0 < rate1 -> rate1 <= rate2 ->
  exists small large,
    calculate_digester_size vs1 rate2 = Ok small
    /\ calculate_digester_size vs2 rate1 = Ok large
    /\ 0 <= small /\ small <= large.
Proof.
  intros Hvs Hle Hr Hrr.
  rewrite !calculate_digester_size_value by lra.
  eexists; eexists. split; [reflexivity|]. split; [reflexivity|].
  assert (E1 : vs1 * 1000 / 365 / rate2 == vs1 * (1000 / 365) / rate2)
    by (field; lra).
  assert (E2 : vs2 * 1000 / 365 / rate1 == vs2 * (1000 / 365) / rate1)
    by (field; lra).
  rewrite E1, E2.
  assert (Hc : 0 < 1000 / 365) by reflexivity.
  set (c := 1000 / 365) in *.
  assert (Hn1 : 0 <= vs1 * c) by nra.
  assert (Hn2 : vs1 * c <= vs2 * c) by nra.
  split.
  - apply Qle_shift_div_l; [lra|]. lra.
  - apply Qle_shift_div_l; [lra|].
    assert (E3 : vs1 * c / rate2 * rate1 == vs1 * c * rate1 / rate2)
      by (field; lra).
    rewrite E3. apply Qle_shift_div_r; [lra|].
    nra.
Qed.

Lemma calculate_digester_size_monotone_witness :
  exists small large,
    calculate_digester_size 1000 7 = Ok small
    /\ calculate_digester_size 2000 3.5 = Ok large
    /\ 0 <= small /\ small <= large.
Proof.
  apply (calculate_digester_size_monotone 1000 2000 3.5 7);
    first [discriminate | reflexivity].
Defined.

(** ** Energy outputs *)

(** X3.  [calculate_biogas_to_energy] always returns (its reads of the
    dictionary it is filling never miss), and the keys of the result are the
    three totals followed by the three biogas keys for ['biogas'], by the
    seven CHP keys for ['chp'], and by nothing for any other output type. *)
Theorem calculate_biogas_to_energy_keys (methane_yield : Q) (output_type : string) :
  exists results,
    calculate_biogas_to_energy methane_yield output_type = Ok results
    /\ keys results
       = ["total_energy_kwh"%string; "total_energy_mwh"%string;
          "total_energy_gj"%string]
         ++ (if String.eqb output_type "biogas"
             then ["biogas_energy_kwh"%string; "biogas_energy_mwh"%string;
                   "biogas_energy_gj"%string]
             else if String.eqb output_type "chp"
             then ["electrical_output_kwh"%string;
                   "electrical_output_mwh"%string;
                   "thermal_output_kwh"%string; "thermal_output_mwh"%string;
                   "thermal_output_gj"%string; "power_capacity_kw"%string;
                   "heat_capacity_kw"%string]
             else []).
Proof.
  unfold calculate_biogas_to_energy.
  destruct (String.eqb output_type "biogas").
  - eexists. split; reflexivity.
  - destruct (String.eqb output_type "chp"); eexists; split; reflexivity.
Qed.

(** X4.  On the CHP pathway the electrical and the thermal output add up to
    85% of the energy of the methane, the power and heat capacities are the
    annual outputs spread over 8760 hours, and the thermal output in GJ is 3.6
    times the one in MWh. *)
Theorem calculate_biogas_to_energy_chp (methane_yield : Q) :
  exists results total electrical thermal thermal_mwh thermal_gj power heat,
    calculate_biogas_to_energy methane_yield "chp" = Ok results
    /\ getitem results "total_energy_kwh" = Ok total
    /\ getitem results "electrical_output_kwh" = Ok electrical
    /\ getitem results "thermal_output_kwh" = Ok thermal
    /\ getitem results "thermal_output_mwh" = Ok thermal_mwh
    /\ getitem results "thermal_output_gj" = Ok thermal_gj
    /\ getitem results "power_capacity_kw" = Ok power
    /\ getitem results "heat_capacity_kw" = Ok heat
    /\ total == methane_yield * 9.97
    /\ electrical + thermal == 0.85 * total
    /\ power * 8760 == electrical
    /\ heat * 8760 == thermal
    /\ thermal_gj == thermal_mwh * 3.6.
Proof.
  do 8 eexists.
  repeat (split; [reflexivity|]).
  repeat split; field.
Qed.

(** X5.  On the biogas pathway the deliverable energy is 98% of the energy
    of the methane, in each unit, and its value in GJ is 3.6 times the one in
    MWh. *)
Theorem calculate_biogas_to_energy_biogas (methane_yield : Q) :
  exists results total_kwh total_gj biogas_kwh biogas_mwh biogas_gj,
    calculate_biogas_to_energy methane_yield "biogas" = Ok results
    /\ getitem results "total_energy_kwh" = Ok total_kwh
    /\ getitem results "total_energy_gj" = Ok total_gj
    /\ getitem results "biogas_energy_kwh" = Ok biogas_kwh
    /\ getitem results "biogas_energy_mwh" = Ok biogas_mwh
    /\ getitem results "biogas_energy_gj" = Ok biogas_gj
    /\ biogas_kwh == 0.98 * total_kwh
    /\ biogas_gj == 0.98 * total_gj
    /\ biogas_gj == biogas_mwh * 3.6.
Proof.
  do 6 eexists.
  repeat (split; [reflexivity|]).
  repeat split; field.
Qed.

(** X6.  For an output type that is neither ['biogas'] nor ['chp'] the
    result holds the three totals only: reading the energy of either pathway
    from it raises [KeyError]. *)
Theorem calculate_biogas_to_energy_other (methane_yield : Q) (output_type : string) :
  String.eqb output_type "biogas" = false ->
  String.eqb output_type "chp" = false ->
  exists results,
    calculate_biogas_to_energy methane_yield output_type = Ok results
    /\ getitem results "biogas_energy_gj" = Raise (KeyError "biogas_energy_gj")
    /\ getitem results "electrical_output_mwh"
       = Raise (KeyError "electrical_output_mwh")
    /\ getitem results "power_capacity_kw" = Raise (KeyError "power_capacity_kw")
    /\ get results "power_capacity_kw" 0 = 0.
Proof.
  intros Hb Hc. unfold calculate_biogas_to_energy. rewrite Hb, Hc.
  eexists. repeat split; reflexivity.
Qed.

Lemma calculate_biogas_to_energy_other_witness :
  exists results,
    calculate_biogas_to_energy 1000 "Biogas" = Ok results
    /\ getitem results "biogas_energy_gj" = Raise (KeyError "biogas_energy_gj")
    /\ getitem results "electrical_output_mwh"
       = Raise (KeyError "electrical_output_mwh")
    /\ getitem results "power_capacity_kw" = Raise (KeyError "power_capacity_kw")
    /\ get results "power_capacity_kw" 0 = 0.
Proof.
  apply (calculate_biogas_to_energy_other 1000 "Biogas"); reflexivity.
Defined.

(** ** Parasitic load and digestate *)

(** X7.  The parasitic load of the biogas pathway is one and a half times
    that of any other output type, for the same digester volume; and the
    entry ['parasitic_load_percentage'] is 0 whatever the inputs are. *)
Theorem calculate_parasitic_load_pathways (digester_volume : Q)
    (output_type : string) :
  String.eqb output_type "biogas" = false ->
  exists biogas_kwh other_kwh,
    getitem (calculate_parasitic_load digester_volume "biogas")
            "parasitic_load_kwh" = Ok biogas_kwh
    /\ getitem (calculate_parasitic_load digester_volume output_type)
               "parasitic_load_kwh" = Ok other_kwh
    /\ other_kwh == 80 * digester_volume
    /\ biogas_kwh == 1.5 * other_kwh
    /\ getitem (calculate_parasitic_load digester_volume "biogas")
               "parasitic_load_percentage" = Ok 0
    /\ getitem (calculate_parasitic_load digester_volume output_type)
               "parasitic_load_percentage" = Ok 0.
Proof.
  intro Hb. unfold calculate_parasitic_load. rewrite Hb.
  change (String.eqb "biogas" "biogas") with true. cbv iota.
  do 2 eexists.
  split; [reflexivity|]. split; [reflexivity|].
  split; [ring|]. split; [ring|]. split; reflexivity.
Qed.

Lemma calculate_parasitic_load_pathways_witness :
  exists biogas_kwh other_kwh,
    getitem (calculate_parasitic_load 1000 "biogas")
            "parasitic_load_kwh" = Ok biogas_kwh
    /\ getitem (calculate_parasitic_load 1000 "chp")
               "parasitic_load_kwh" = Ok other_kwh
    /\ other_kwh == 80 * 1000
    /\ biogas_kwh == 1.5 * other_kwh
    /\ getitem (calculate_parasitic_load 1000 "biogas")
               "parasitic_load_percentage" = Ok 0
    /\ getitem (calculate_parasitic_load 1000 "chp")
               "parasitic_load_percentage" = Ok 0.
Proof.
  apply (calculate_parasitic_load_pathways 1000 "chp"). reflexivity.
Defined.

(** X8.  The solid and the liquid digestate add up to the total digestate,
    which is the feedstock less the volatile solids destroyed: it is not
    negative when the destroyed solids do not exceed the feedstock, and it is
    negative (as are both fractions) when they do. *)
Theorem calculate_digestate_production_balance
    (total_feedstock total_vs_tonnes vs_destruction : Q) :
  exists total solid liquid,
    getitem (calculate_digestate_production total_feedstock total_vs_tonnes
               vs_destruction) "total_digestate_tonnes" = Ok total
    /\ getitem (calculate_digestate_production total_feedstock total_vs_tonnes
                  vs_destruction) "solid_digestate_tonnes" = Ok solid
    /\ getitem (calculate_digestate_production total_feedstock total_vs_tonnes
                  vs_destruction) "liquid_digestate_tonnes" = Ok liquid
    /\ solid + liquid == total
    /\ total == total_feedstock - total_vs_tonnes * vs_destruction
    /\ (total_vs_tonnes * vs_destruction <= total_feedstock ->
        0 <= total /\ 0 <= solid /\ 0 <= liquid)
    /\ (total_feedstock < total_vs_tonnes * vs_destruction ->
        total < 0 /\ solid < 0 /\ liquid < 0).
Proof.
  do 3 eexists.
  do 3 (split; [reflexivity|]).
  split; [ring|]. split; [ring|].
  generalize (total_vs_tonnes * vs_destruction). intro destroyed.
  split; intro H; repeat split; lra.
Qed.

Lemma calculate_digestate_production_balance_witness :
  exists total solid liquid,
    getitem (calculate_digestate_production 100 200 0.7)
            "total_digestate_tonnes" = Ok total
    /\ getitem (calculate_digestate_production 100 200 0.7)
               "solid_digestate_tonnes" = Ok solid
    /\ getitem (calculate_digestate_production 100 200 0.7)
               "liquid_digestate_tonnes" = Ok liquid
    /\ total < 0 /\ solid < 0 /\ liquid < 0.
Proof.
  destruct (calculate_digestate_production_balance 100 200 0.7)
    as (total & solid & liquid & Ht & Hs & Hl & _ & _ & _ & Hneg).
  exists total, solid, liquid.
  split; [exact Ht|]. split; [exact Hs|]. split; [exact Hl|].
  apply Hneg. reflexivity.
Defined.

(** ** More on the CHP units *)

Lemma descending_app_one (units : list Z) (size : Z) :
  descending units -> Forall (fun unit => (size <= unit)%Z) units ->
  descending (units ++ [size]).
Proof.
  unfold descending. intros Hsorted Hall.
  induction Hsorted as [|u units Hs IH Hu]; cbn [app].
  - repeat constructor.
  - inversion Hall as [|? ? Hle Hrest]; subst.
    constructor; [apply IH; exact Hrest|].
    apply Forall_app. split; [exact Hu|]. constructor; [exact Hle|constructor].
Qed.

(** What the [while] loop of one size keeps. *)
Lemma add_units_catalog (fuel : nat) (size : Z) (st : chp_state) :
  In size available_sizes -> in_catalog (fst st) ->
  in_catalog (fst (add_units fuel size st)).
Proof.
  intro Hsize. revert st.
  induction fuel as [|fuel IH]; intros [units remaining] H; cbn [add_units].
  - exact H.
  - destruct (Qle_bool (inject_Z size * 0.8) remaining); [|exact H].
    apply IH. cbn [fst] in *. unfold in_catalog in *.
    apply Forall_app. split; [exact H|]. constructor; [exact Hsize|constructor].
Qed.

Lemma add_units_descending (fuel : nat) (size : Z) (st : chp_state) :
  descending (fst st) -> Forall (fun unit => (size <= unit)%Z) (fst st) ->
  descending (fst (add_units fuel size st))
  /\ Forall (fun unit => (size <= unit)%Z) (fst (add_units fuel size st)).
Proof.
  revert st.
  induction fuel as [|fuel IH]; intros [units remaining] Hd Hall;
    cbn [add_units].
  - split; assumption.
  - destruct (Qle_bool (inject_Z size * 0.8) remaining); [|split; assumption].
    apply IH; cbn [fst] in *.
    + apply descending_app_one; assumption.
    + apply Forall_app. split; [exact Hall|].
      constructor; [lia|constructor].
Qed.

(** A unit is only added when four fifths of it are still to cover, so what
    has been installed in excess is at most a fifth of the installed
    capacity. *)
Lemma add_units_slack (fuel : nat) (size : Z) (st : chp_state) :
  (0 < size)%Z ->
  0 <= inject_Z (sum (fst st)) ->
  0 <= snd st + 0.2 * inject_Z (sum (fst st)) ->
  0 <= inject_Z (sum (fst (add_units fuel size st)))
  /\ 0 <= snd (add_units fuel size st)
          + 0.2 * inject_Z (sum (fst (add_units fuel size st))).
Proof.
  intro Hsize. revert st.
  induction fuel as [|fuel IH]; intros [units remaining] Hsum Hslack;
    cbn [add_units].
  - split; assumption.
  - destruct (Qle_bool (inject_Z size * 0.8) remaining) eqn:E;
      [|split; assumption].
    apply Qle_bool_iff in E.
    assert (Hs : 0 < inject_Z size).
    { change 0 with (inject_Z 0). rewrite <- Zlt_Qlt. exact Hsize. }
    apply IH; cbn [fst snd] in *;
      rewrite sum_app_one, inject_Z_plus; lra.
Qed.

(** Nothing is added from a state whose remaining capacity is below four
    fifths of every size. *)
Lemma add_units_none (fuel : nat) (size : Z) (st : chp_state) :
  snd st < inject_Z size * 0.8 -> add_units fuel size st = st.
Proof.
  destruct st as [units remaining]. intro H.
  destruct fuel as [|fuel]; cbn [add_units]; [reflexivity|].
  cbn [snd] in H. apply Qle_bool_false_iff in H. rewrite H. reflexivity.
Qed.

Lemma greedy_fill_none (sizes : list Z) (st : chp_state) :
  Forall (fun size => snd st < inject_Z size * 0.8) sizes ->
  greedy_fill sizes st = st.
Proof.
  unfold greedy_fill. intro H.
  induction H as [|size sizes Hsize Hrest IH]; cbn [fold_left].
  - reflexivity.
  - rewrite add_units_none by exact Hsize. exact IH.
Qed.

Lemma greedy_fill_catalog (sizes : list Z) (st : chp_state) :
  Forall (fun size => In size available_sizes) sizes ->
  in_catalog (fst st) -> in_catalog (fst (greedy_fill sizes st)).
Proof.
  unfold greedy_fill. intro H. revert st.
  induction H as [|size sizes Hsize Hrest IH]; intros st Hst; cbn [fold_left].
  - exact Hst.
  - apply IH. apply add_units_catalog; assumption.
Qed.

Lemma greedy_fill_descending (sizes : list Z) (bound : Z) (st : chp_state) :
  descending (bound :: sizes) ->
  descending (fst st) -> Forall (fun unit => (bound <= unit)%Z) (fst st) ->
  descending (fst (greedy_fill sizes st)).
Proof.
  unfold greedy_fill. revert bound st.
  induction sizes as [|size sizes IH]; intros bound st Hsizes Hd Hall;
    cbn [fold_left].
  - exact Hd.
  - unfold descending in Hsizes.
    inversion Hsizes as [|? ? Hrest Hbound]; subst.
    inversion Hbound as [|? ? Hle _]; subst.
    destruct (add_units_descending (add_units_fuel size st) size st Hd)
      as (Hd' & Hall').
    { eapply Forall_impl; [|exact Hall]. cbn. intros unit Hu. lia. }
    apply (IH size); assumption.
Qed.

Lemma greedy_fill_slack (sizes : list Z) (st : chp_state) :
  Forall (fun size => (0 < size)%Z) sizes ->
  0 <= inject_Z (sum (fst st)) ->
  0 <= snd st + 0.2 * inject_Z (sum (fst st)) ->
  0 <= inject_Z (sum (fst (greedy_fill sizes st)))
  /\ 0 <= snd (greedy_fill sizes st)
          + 0.2 * inject_Z (sum (fst (greedy_fill sizes st))).
Proof.
  unfold greedy_fill. intro H. revert st.
  induction H as [|size sizes Hsize Hrest IH]; intros st Hsum Hslack;
    cbn [fold_left].
  - split; assumption.
  - destruct (add_units_slack (add_units_fuel size st) size st Hsize Hsum Hslack)
      as (Hsum' & Hslack').
    apply IH; assumption.
Qed.

Lemma in_catalog_least (unit : Z) :
  In unit available_sizes -> (100 <= unit)%Z.
Proof.
  unfold available_sizes. cbn [In].
  intros [H|[H|[H|[H|[H|[H|[H|[]]]]]]]]; subst; lia.
Qed.

Lemma in_catalog_sum (units : list Z) :
  in_catalog units -> (100 * Z.of_nat (List.length units) <= sum units)%Z.
Proof.
  unfold in_catalog. intro H.
  induction units as [|u units IH] using rev_ind.
  - cbn. lia.
  - apply Forall_app in H as [Hunits Hu].
    inversion Hu as [|? ? Hin _]; subst. apply in_catalog_least in Hin.
    rewrite sum_app_one, length_app. cbn [List.length].
    specialize (IH Hunits). lia.
Qed.

(** The shape of the result of [size_chp_units]: the state [(units,
    remaining)] left by the greedy loops, and a 100 kW unit on top of it when
    more than 50 kW remain. *)
Lemma size_chp_units_shape (power_capacity_kw : Q) :
  exists units remaining,
    greedy_fill [2000; 1500; 1000; 800; 500; 250; 100]%Z ([], power_capacity_kw)
      = (units, remaining)
    /\ inject_Z (sum units) + remaining == power_capacity_kw
    /\ remaining < 80
    /\ in_catalog units
    /\ descending units
    /\ chp_units (size_chp_units power_capacity_kw)
       = (if Qlt_bool 50 remaining then units ++ [100%Z] else units).
Proof.
  pose proof (greedy_fill_covers power_capacity_kw
                ([2000; 1500; 1000; 800; 500; 250]%Z ++ [100%Z])
                ([], power_capacity_kw)) as Hcov.
  pose proof (greedy_fill_last [2000; 1500; 1000; 800; 500; 250]%Z 100
                ([], power_capacity_kw)) as Hlast.
  pose proof (greedy_fill_catalog [2000; 1500; 1000; 800; 500; 250; 100]%Z
                ([], power_capacity_kw)) as Hcat.
  pose proof (greedy_fill_descending [1500; 1000; 800; 500; 250; 100]%Z 2000
                (add_units (add_units_fuel 2000 ([], power_capacity_kw)) 2000
                   ([], power_capacity_kw))) as Hdesc.
  unfold size_chp_units.
  change (sorted available_sizes)
    with ([100; 250; 500; 800; 1000; 1500; 2000]%Z).
  change (sorted_reverse available_sizes)
    with ([2000; 1500; 1000; 800; 500; 250; 100]%Z).
  change ([2000; 1500; 1000; 800; 500; 250]%Z ++ [100%Z])
    with ([2000; 1500; 1000; 800; 500; 250; 100]%Z) in *.
  change (greedy_fill [1500; 1000; 800; 500; 250; 100]%Z
            (add_units (add_units_fuel 2000 ([], power_capacity_kw)) 2000
               ([], power_capacity_kw)))
    with (greedy_fill [2000; 1500; 1000; 800; 500; 250; 100]%Z
            ([], power_capacity_kw)) in Hdesc.
  destruct (add_units_descending
              (add_units_fuel 2000 ([], power_capacity_kw)) 2000
              ([], power_capacity_kw)) as (Hd0 & Hall0);
    [constructor | constructor |].
  destruct (greedy_fill _ _) as [units remaining].
  exists units, remaining. cbn [fst snd] in *.
  assert (Hr : remaining < 80).
  { assert (H80 : inject_Z 100 * 0.8 == 80) by reflexivity.
    rewrite <- H80. apply Hlast. reflexivity. }
  split; [reflexivity|].
  split. { apply Hcov. unfold covers, sum. cbn [fst snd fold_left].
           change (inject_Z 0) with 0. ring. }
  split; [exact Hr|].
  split. { apply Hcat; [|constructor].
           repeat (apply Forall_cons;
                   [unfold available_sizes; cbn [In]; auto 10|]).
           apply Forall_nil. }
  split. { apply Hdesc; [|exact Hd0|exact Hall0].
           unfold descending. repeat constructor; lia. }
  unfold top_up.
  destruct (Qlt_bool 50 remaining) eqn:E; [|reflexivity].
  assert (Hle : Qle_bool remaining (inject_Z 100) = true).
  { apply Qle_bool_iff. change (inject_Z 100) with 100. lra. }
  cbn [find]. rewrite Hle. reflexivity.
Qed.

Lemma size_chp_units_fields (power_capacity_kw : Q) :
  total_installed_capacity_kw (size_chp_units power_capacity_kw)
    = sum (chp_units (size_chp_units power_capacity_kw))
  /\ number_of_units (size_chp_units power_capacity_kw)
     = List.length (chp_units (size_chp_units power_capacity_kw))
  /\ capacity_utilization (size_chp_units power_capacity_kw)
     = (if (0 <? sum (chp_units (size_chp_units power_capacity_kw)))%Z
        then power_capacity_kw
             / inject_Z (sum (chp_units (size_chp_units power_capacity_kw)))
        else 0).
Proof.
  unfold size_chp_units.
  destruct (top_up _ _) as [units remaining].
  cbn [chp_units total_installed_capacity_kw number_of_units
       capacity_utilization].
  repeat split.
Qed.

(** C10.  The units that [size_chp_units] selects have a total capacity of
    at least the target less 50 kW: what the selected units leave uncovered
    never exceeds 50 kW.  The field [total_installed_capacity_kw] is that
    total. *)
Theorem size_chp_units_covers (power_capacity_kw : Q) :
  power_capacity_kw - 50
    <= inject_Z (sum (chp_units (size_chp_units power_capacity_kw)))
  /\ power_capacity_kw
       - inject_Z (sum (chp_units (size_chp_units power_capacity_kw)))
     <= 50
  /\ total_installed_capacity_kw (size_chp_units power_capacity_kw)
     = sum (chp_units (size_chp_units power_capacity_kw)).
Proof.
  destruct (size_chp_units_fields power_capacity_kw) as (Htotal & _ & _).
  destruct (size_chp_units_shape power_capacity_kw)
    as (units & remaining & _ & Hcov & Hr & _ & _ & Hunits).
  rewrite Hunits.
  assert (Hmain : power_capacity_kw - 50
                  <= inject_Z (sum (if Qlt_bool 50 remaining
                                    then units ++ [100%Z] else units))).
  { destruct (Qlt_bool 50 remaining) eqn:E.
    - rewrite sum_app_one, inject_Z_plus. change (inject_Z 100) with 100. lra.
    - apply Qlt_bool_false_iff in E. lra. }
  split; [exact Hmain|]. split; [lra|].
  rewrite <- Hunits. exact Htotal.
Qed.

(** X9.  Every unit that [size_chp_units] selects is one of the seven
    catalog sizes, and the units are listed largest first. *)
Theorem size_chp_units_catalog (power_capacity_kw : Q) :
  in_catalog (chp_units (size_chp_units power_capacity_kw))
  /\ descending (chp_units (size_chp_units power_capacity_kw)).
Proof.
  destruct (size_chp_units_shape power_capacity_kw)
    as (units & remaining & _ & _ & _ & Hcat & Hdesc & Hunits).
  rewrite Hunits.
  destruct (Qlt_bool 50 remaining); [|split; assumption].
  split.
  - unfold in_catalog. apply Forall_app. split; [exact Hcat|].
    constructor; [|constructor].
    unfold available_sizes. cbn [In]. auto.
  - apply descending_app_one; [exact Hdesc|].
    eapply Forall_impl; [|exact Hcat].
    cbn. intros unit Hu. apply in_catalog_least. exact Hu.
Qed.

(** X10.  [size_chp_units] selects no unit exactly when the target power
    capacity is 50 kW or less. *)
Theorem size_chp_units_empty (power_capacity_kw : Q) :
  chp_units (size_chp_units power_capacity_kw) = [] <-> power_capacity_kw <= 50.
Proof.
  destruct (size_chp_units_shape power_capacity_kw)
    as (units & remaining & Hfill & Hcov & _ & _ & _ & Hunits).
  rewrite Hunits. split.
  - destruct (Qlt_bool 50 remaining) eqn:E.
    + intro H. destruct units; discriminate H.
    + intros ->. apply Qlt_bool_false_iff in E.
      unfold sum in Hcov. cbn [fold_left] in Hcov.
      change (inject_Z 0) with 0 in Hcov. lra.
  - intro Hp.
    rewrite greedy_fill_none in Hfill.
    + injection Hfill as <- <-.
      assert (E : Qlt_bool 50 power_capacity_kw = false)
        by (apply Qlt_bool_false_iff; exact Hp).
      rewrite E. reflexivity.
    + cbn [snd].
      repeat (apply Forall_cons;
              [match goal with
               | |- _ < inject_Z ?z * 0.8 =>
                   apply Qle_lt_trans with 50; [exact Hp | reflexivity]
               end|]).
      apply Forall_nil.
Qed.

Lemma size_chp_units_empty_witness :
  chp_units (size_chp_units 50) = [].
Proof.
  apply (proj2 (size_chp_units_empty 50)). discriminate.
Defined.

(** X11.  For a target above 50 kW the capacity utilization that
    [size_chp_units] reports lies above one half and does not exceed three
    halves. *)
Theorem size_chp_units_utilization (power_capacity_kw : Q) :
  50 < power_capacity_kw ->
  1 # 2 < capacity_utilization (size_chp_units power_capacity_kw)
  /\ capacity_utilization (size_chp_units power_capacity_kw) <= 3 # 2.
Proof.
  intro Hp.
  destruct (size_chp_units_fields power_capacity_kw) as (_ & _ & Hutil).
  destruct (size_chp_units_shape power_capacity_kw)
    as (units & remaining & Hfill & Hcov & Hr & Hcat & _ & Hunits).
  destruct (greedy_fill_slack [2000; 1500; 1000; 800; 500; 250; 100]%Z
              ([], power_capacity_kw)) as (Hsum & Hslack).
  { repeat (apply Forall_cons; [lia|]). apply Forall_nil. }
  { discriminate. }
  { cbn [fst snd]. unfold sum. cbn [fold_left].
    change (inject_Z 0) with 0. lra. }
  rewrite Hfill in Hsum, Hslack. cbn [fst snd] in Hsum, Hslack.
  pose proof (in_catalog_sum units Hcat) as Hleast.
  rewrite Hutil, Hunits. clear Hutil Hunits Hfill.
  destruct (Qlt_bool 50 remaining) eqn:E.
  - apply Qlt_bool_iff in E.
    rewrite sum_app_one.
    assert (Hpos : (0 <? sum units + 100)%Z = true).
    { apply Z.ltb_lt.
      assert (0 <= sum units)%Z by (rewrite Zle_Qle; exact Hsum). lia. }
    rewrite Hpos. rewrite inject_Z_plus. change (inject_Z 100) with 100.
    set (installed := inject_Z (sum units)) in *.
    split.
    + apply Qlt_shift_div_l; lra.
    + apply Qle_shift_div_r; lra.
  - apply Qlt_bool_false_iff in E.
    assert (Hinstalled : 0 < inject_Z (sum units)) by lra.
    assert (Hnonempty : (100 <= sum units)%Z).
    { destruct units as [|u units'].
      - unfold sum in Hinstalled. cbn [fold_left] in Hinstalled.
        discriminate Hinstalled.
      - cbn [List.length] in Hleast. lia. }
    assert (Hpos : (0 <? sum units)%Z = true) by (apply Z.ltb_lt; lia).
    rewrite Hpos.
    assert (H100 : 100 <= inject_Z (sum units)).
    { change 100 with (inject_Z 100). rewrite <- Zle_Qle. exact Hnonempty. }
    set (installed := inject_Z (sum units)) in *.
    split.
    + apply Qlt_shift_div_l; lra.
    + apply Qle_shift_div_r; lra.
Qed.

Lemma size_chp_units_utilization_witness :
  1 # 2 < capacity_utilization (size_chp_units 51.5)
  /\ capacity_utilization (size_chp_units 51.5) <= 3 # 2.
Proof.
  apply (size_chp_units_utilization 51.5). reflexivity.
Defined.

(** ** More on the cost breakdowns *)

(** X12.  The CAPEX total is 1.265 times the equipment cost (EPC of 15% and
    a contingency of 10% on top of it), the equipment cost being 725 per
    cubic metre of digester (the digester and its four auxiliary systems)
    plus the pathway line. *)
Theorem calculate_capex_total (digester_volume : Q) (output_type : string)
    (chp_capacity : Q) :
  exists total,
    getitem (calculate_capex digester_volume output_type chp_capacity)
            "Total CAPEX" = Ok total
    /\ total == 1.265 * (725 * digester_volume
                         + (if String.eqb output_type "biogas"
                            then digester_volume * 1.5 / 8760 * 10000
                            else chp_capacity * 1500)).
Proof.
  unfold calculate_capex.
  destruct (String.eqb output_type "biogas");
    (eexists; split; [reflexivity|]); field.
Qed.

(** X13.  [calculate_capex] does not validate the output type: whatever is
    not ['biogas'] is costed as CHP, under the key "CHP System"; and on
    ['biogas'] the CHP capacity is ignored. *)
Theorem calculate_capex_output_type :
  (forall (digester_volume : Q) (output_type : string) (chp_capacity : Q),
      String.eqb output_type "biogas" = false ->
      calculate_capex digester_volume output_type chp_capacity
        = calculate_capex digester_volume "chp" chp_capacity
      /\ getitem (calculate_capex digester_volume output_type chp_capacity)
                 "CHP System" = Ok (chp_capacity * 1500)
      /\ getitem (calculate_capex digester_volume output_type chp_capacity)
                 "Biogas Upgrading System"
         = Raise (KeyError "Biogas Upgrading System"))
  /\
  (forall (digester_volume chp_capacity1 chp_capacity2 : Q),
      calculate_capex digester_volume "biogas" chp_capacity1
        = calculate_capex digester_volume "biogas" chp_capacity2
      /\ getitem (calculate_capex digester_volume "biogas" chp_capacity1)
                 "CHP System" = Raise (KeyError "CHP System")).
Proof.
  split.
  - intros v ot c Hot. unfold calculate_capex. rewrite Hot.
    repeat split.
  - intros v c1 c2. split; reflexivity.
Qed.

Lemma calculate_capex_output_type_witness :
  calculate_capex 1000 "CHP" 10 = calculate_capex 1000 "chp" 10
  /\ getitem (calculate_capex 1000 "CHP" 10) "CHP System" = Ok (10 * 1500)
  /\ getitem (calculate_capex 1000 "CHP" 10) "Biogas Upgrading System"
     = Raise (KeyError "Biogas Upgrading System").
Proof.
  apply (proj1 calculate_capex_output_type 1000 "CHP"%string 10). reflexivity.
Defined.

(** X14.  With a digester volume and a CHP capacity that are not negative,
    no line of the CAPEX breakdown is negative. *)
Theorem calculate_capex_nonneg (digester_volume : Q) (output_type : string)
    (chp_capacity : Q) :
  0 <= digester_volume -> 0 <= chp_capacity ->
  Forall (fun entry => 0 <= snd entry)
         (calculate_capex digester_volume output_type chp_capacity).
Proof.
  intros Hv Hc. unfold calculate_capex.
  assert (Hup : 0 <= digester_volume * 1.5 / 8760 * 10000).
  { assert (E : digester_volume * 1.5 / 8760 * 10000
                == digester_volume * (15000 # 8760)) by field.
    rewrite E. lra. }
  destruct (String.eqb output_type "biogas").
  - set (upgrading := digester_volume * 1.5 / 8760 * 10000) in *.
    repeat (apply Forall_cons; [cbn [snd]; lra|]). apply Forall_nil.
  - repeat (apply Forall_cons; [cbn [snd]; lra|]). apply Forall_nil.
Qed.

Lemma calculate_capex_nonneg_witness :
  Forall (fun entry => 0 <= snd entry) (calculate_capex 1000 "biogas" 0).
Proof.
  apply (calculate_capex_nonneg 1000 "biogas" 0); discriminate.
Defined.

(** X15.  [calculate_opex] on the biogas pathway needs the upgrading line
    of the CAPEX breakdown: given the breakdown built for any other output
    type it raises [KeyError] on "Biogas Upgrading System".  On any other
    pathway it returns as soon as the breakdown has its total; and without
    the total it raises the [KeyError] of that lookup on every pathway. *)
Theorem calculate_opex_keys :
  (forall (total_feedstock digester_volume chp_capacity capex_volume
           capex_chp_capacity : Q) (capex_output_type : string),
      String.eqb capex_output_type "biogas" = false ->
      calculate_opex total_feedstock digester_volume "biogas"
        (calculate_capex capex_volume capex_output_type capex_chp_capacity)
        chp_capacity
      = Raise (KeyError "Biogas Upgrading System"))
  /\
  (forall (total_feedstock digester_volume chp_capacity total_capex : Q)
          (output_type : string) (capex : dict),
      String.eqb output_type "biogas" = false ->
      getitem capex "Total CAPEX" = Ok total_capex ->
      exists opex,
        calculate_opex total_feedstock digester_volume output_type capex
          chp_capacity = Ok opex)
  /\
  (forall (total_feedstock digester_volume chp_capacity : Q)
          (output_type : string) (capex : dict) (e : exn),
      getitem capex "Total CAPEX" = Raise e ->
      calculate_opex total_feedstock digester_volume output_type capex
        chp_capacity = Raise e).
Proof.
  split; [|split].
  - intros tf v c cv cc ot Hot. unfold calculate_opex, calculate_capex.
    rewrite Hot. reflexivity.
  - intros tf v c t ot capex Hot Ht. unfold calculate_opex.
    rewrite Ht, Hot. cbn [bind]. eexists. reflexivity.
  - intros tf v c ot capex e He. unfold calculate_opex.
    rewrite He. reflexivity.
Qed.

Lemma calculate_opex_keys_witness :
  calculate_opex 100 1000 "biogas" (calculate_capex 1000 "chp" 10) 10
    = Raise (KeyError "Biogas Upgrading System").
Proof.
  apply (proj1 calculate_opex_keys 100 1000 10 1000 10 "chp"%string).
  reflexivity.
Defined.

(** ** More on the levelized cost of energy *)

Lemma range_length (lo hi : Z) : List.length (range lo hi) = Z.to_nat (hi - lo).
Proof.
  unfold range. rewrite length_map, length_seq. reflexivity.
Qed.

Lemma range_first (lifetime : Z) :
  (1 <= lifetime)%Z -> exists years, range 1 (lifetime + 1) = 1%Z :: years.
Proof.
  intro H. unfold range.
  replace (lifetime + 1 - 1)%Z with lifetime by lia.
  destruct (Z.to_nat lifetime) as [|n] eqn:E; [lia|].
  cbn [seq map]. eexists. reflexivity.
Qed.

Lemma range_empty (lifetime : Z) :
  (lifetime <= 0)%Z -> range 1 (lifetime + 1) = [].
Proof.
  intro H. unfold range.
  replace (Z.to_nat (lifetime + 1 - 1)) with 0%nat by lia. reflexivity.
Qed.

Lemma discount_factor_sum_zero_rate (rate : Q) (years : list Z) :
  rate == 0 ->
  discount_factor_sum rate years == inject_Z (Z.of_nat (List.length years)).
Proof.
  intro Hrate.
  induction years as [|year years IH]; cbn [discount_factor_sum fold_right].
  - reflexivity.
  - fold (discount_factor_sum rate years). rewrite IH.
    cbn [List.length]. rewrite Nat2Z.inj_succ. unfold Z.succ.
    rewrite inject_Z_plus. change (inject_Z 1) with 1.
    assert (E : (1 + rate) ^ year == 1).
    { assert (E1 : 1 + rate == 1) by lra. rewrite E1. apply Qpower_1. }
    rewrite E. field.
Qed.

(** X16.  With a discount rate of zero the levelized cost is the plain
    average: the CAPEX total plus [lifetime] years of OPEX, over [lifetime]
    years of energy. *)
Theorem calculate_lcoe_zero_rate (capex opex : dict)
    (total_capex annual_opex annual_energy_output : Q)
    (project_lifetime : Z) (discount_rate : Q) :
  getitem capex "Total CAPEX" = Ok total_capex ->
  getitem opex "Total OPEX" = Ok annual_opex ->
  0 < annual_energy_output -> (1 <= project_lifetime)%Z ->
  discount_rate == 0 ->
  exists lcoe,
    calculate_lcoe capex opex annual_energy_output project_lifetime
      discount_rate = Ok lcoe
    /\ lcoe == (total_capex + inject_Z project_lifetime * annual_opex)
               / (inject_Z project_lifetime * annual_energy_output).
Proof.
  intros Hc Ho He Hl Hr.
  destruct (calculate_lcoe_value capex opex total_capex annual_opex
              annual_energy_output project_lifetime discount_rate Hc Ho He Hl)
    as (l & f & Hlcoe & Hf & Hpos & E); [lra|].
  exists l. split; [exact Hlcoe|].
  assert (Ef : f == inject_Z project_lifetime).
  { rewrite Hf, (discount_factor_sum_zero_rate _ _ Hr), range_length.
    replace (Z.of_nat (Z.to_nat (project_lifetime + 1 - 1)))
      with project_lifetime by lia.
    reflexivity. }
  rewrite E, Ef.
  assert (Hlq : 0 < inject_Z project_lifetime).
  { change 0 with (inject_Z 0). rewrite <- Zlt_Qlt. lia. }
  field. split; lra.
Qed.

Lemma calculate_lcoe_zero_rate_witness :
  exists lcoe,
    calculate_lcoe [("Total CAPEX"%string, 1000)] [("Total OPEX"%string, 100)]
      50 2 0 = Ok lcoe
    /\ lcoe == (1000 + inject_Z 2 * 100) / (inject_Z 2 * 50).
Proof.
  apply (calculate_lcoe_zero_rate
           [("Total CAPEX"%string, 1000)] [("Total OPEX"%string, 100)]
           1000 100 50 2%Z 0);
    first [reflexivity | lia].
Defined.

(** X17.  With a positive energy output and a lifetime of zero years or
    less, nothing is discounted: the present value of the energy is 0 and
    [calculate_lcoe] returns 0, for any discount rate, -1 included. *)
Theorem calculate_lcoe_no_lifetime (capex opex : dict)
    (total_capex annual_opex annual_energy_output : Q)
    (project_lifetime : Z) (discount_rate : Q) :
  getitem capex "Total CAPEX" = Ok total_capex ->
  getitem opex "Total OPEX" = Ok annual_opex ->
  0 < annual_energy_output -> (project_lifetime <= 0)%Z ->
  calculate_lcoe capex opex annual_energy_output project_lifetime discount_rate
    = Ok 0.
Proof.
  intros Hc Ho He Hl. unfold calculate_lcoe.
  apply Qle_bool_false_iff in He. rewrite He, Hc, Ho.
  rewrite range_empty by exact Hl. reflexivity.
Qed.

Lemma calculate_lcoe_no_lifetime_witness :
  calculate_lcoe [("Total CAPEX"%string, 1000)] [("Total OPEX"%string, 100)]
    50 0 (-1) = Ok 0.
Proof.
  apply (calculate_lcoe_no_lifetime
           [("Total CAPEX"%string, 1000)] [("Total OPEX"%string, 100)]
           1000 100 50 0%Z (-1));
    first [reflexivity | lia].
Defined.

(** X18.  On a positive energy output, [calculate_lcoe] raises the
    [KeyError] of a breakdown that lacks its total, and with both totals
    there, a lifetime of at least one year and a discount rate of -1 it
    raises [ZeroDivisionError]. *)
Theorem calculate_lcoe_raises :
  (forall (capex opex : dict) (annual_energy_output : Q)
          (project_lifetime : Z) (discount_rate : Q) (e : exn),
      0 < annual_energy_output ->
      getitem capex "Total CAPEX" = Raise e ->
      calculate_lcoe capex opex annual_energy_output project_lifetime
        discount_rate = Raise e)
  /\
  (forall (capex opex : dict) (total_capex annual_energy_output : Q)
          (project_lifetime : Z) (discount_rate : Q) (e : exn),
      0 < annual_energy_output ->
      getitem capex "Total CAPEX" = Ok total_capex ->
      getitem opex "Total OPEX" = Raise e ->
      calculate_lcoe capex opex annual_energy_output project_lifetime
        discount_rate = Raise e)
  /\
  (forall (capex opex : dict) (total_capex annual_opex annual_energy_output : Q)
          (project_lifetime : Z) (discount_rate : Q),
      0 < annual_energy_output ->
      getitem capex "Total CAPEX" = Ok total_capex ->
      getitem opex "Total OPEX" = Ok annual_opex ->
      (1 <= project_lifetime)%Z -> discount_rate == -1 ->
      calculate_lcoe capex opex annual_energy_output project_lifetime
        discount_rate = Raise ZeroDivisionError).
Proof.
  split; [|split].
  - intros capex opex E L r e He Hc. unfold calculate_lcoe.
    apply Qle_bool_false_iff in He. rewrite He, Hc. reflexivity.
  - intros capex opex C E L r e He Hc Ho. unfold calculate_lcoe.
    apply Qle_bool_false_iff in He. rewrite He, Hc, Ho. reflexivity.
  - intros capex opex C O E L r He Hc Ho Hl Hr. unfold calculate_lcoe.
    apply Qle_bool_false_iff in He. rewrite He, Hc, Ho. cbn [bind].
    destruct (range_first L Hl) as (years & Hrange). rewrite Hrange.
    cbn [present_value]. unfold py_pow.
    assert (Hz : 1 + r == 0) by lra.
    apply Qeq_bool_iff in Hz as Hb. rewrite Hb.
    cbn [Z.ltb Z.compare andb bind].
    unfold py_div.
    assert (Hp : Qeq_bool ((1 + r) ^ 1) 0 = true).
    { apply Qeq_bool_iff. rewrite Hz. reflexivity. }
    rewrite Hp. reflexivity.
Qed.

Lemma calculate_lcoe_raises_witness :
  calculate_lcoe [("Total CAPEX"%string, 1000)] [("Total OPEX"%string, 100)]
    50 20 (-1) = Raise ZeroDivisionError.
Proof.
  apply (proj2 (proj2 calculate_lcoe_raises)
           [("Total CAPEX"%string, 1000)] [("Total OPEX"%string, 100)]
           1000 100 50 20%Z (-1));
    first [reflexivity | lia].
Defined.

Lemma getitem_scale_dict (d : dict) (factor : Q) (key : string) :
  getitem (scale_dict d factor) key
    = match getitem d key with
      | Ok v => Ok (v * factor)
      | Raise e => Raise e
      end.
Proof.
  unfold scale_dict.
  induction d as [|[k v] d IH]; cbn [map getitem fst snd].
  - reflexivity.
  - destruct (String.eqb key k); [reflexivity | exact IH].
Qed.

(** X19.  The sensitivity analysis scales every entry of a breakdown, or
    the energy output, by a factor.  With the energy output scaled by a
    positive [factor] the levelized cost is divided by it; with both
    breakdowns scaled it is multiplied by it; and the levelized costs with
    the CAPEX alone and with the OPEX alone scaled add up to [1 + factor]
    times the unscaled one. *)
Theorem calculate_lcoe_scaling (capex opex : dict)
    (total_capex annual_opex annual_energy_output : Q)
    (project_lifetime : Z) (discount_rate factor : Q) :
  getitem capex "Total CAPEX" = Ok total_capex ->
  getitem opex "Total OPEX" = Ok annual_opex ->
  0 < annual_energy_output -> (1 <= project_lifetime)%Z ->
  0 <= discount_rate -> 0 < factor ->
  exists base capex_scaled opex_scaled costs_scaled energy_scaled,
    calculate_lcoe capex opex annual_energy_output project_lifetime
      discount_rate = Ok base
    /\ calculate_lcoe (scale_dict capex factor) opex
         annual_energy_output project_lifetime discount_rate = Ok capex_scaled
    /\ calculate_lcoe capex (scale_dict opex factor)
         annual_energy_output project_lifetime discount_rate = Ok opex_scaled
    /\ calculate_lcoe (scale_dict capex factor) (scale_dict opex factor)
         annual_energy_output project_lifetime discount_rate = Ok costs_scaled
    /\ calculate_lcoe capex opex (annual_energy_output * factor)
         project_lifetime discount_rate = Ok energy_scaled
    /\ energy_scaled == base / factor
    /\ costs_scaled == base * factor
    /\ capex_scaled + opex_scaled == (1 + factor) * base.
Proof.
  intros Hc Ho He Hl Hr Hf.
  assert (Hcs : getitem (scale_dict capex factor) "Total CAPEX"
                = Ok (total_capex * factor))
    by (rewrite getitem_scale_dict, Hc; reflexivity).
  assert (Hos : getitem (scale_dict opex factor) "Total OPEX"
                = Ok (annual_opex * factor))
    by (rewrite getitem_scale_dict, Ho; reflexivity).
  assert (Hef : 0 < annual_energy_output * factor)
    by (apply Qmult_lt_0_compat; assumption).
  destruct (calculate_lcoe_value _ _ _ _ _ _ _ Hc Ho He Hl Hr)
    as (base & f & Hbase & Ef & Hpos & Ebase).
  destruct (calculate_lcoe_value _ _ _ _ _ _ _ Hcs Ho He Hl Hr)
    as (x1 & f1 & H1 & Ef1 & _ & E1).
  destruct (calculate_lcoe_value _ _ _ _ _ _ _ Hc Hos He Hl Hr)
    as (x2 & f2 & H2 & Ef2 & _ & E2).
  destruct (calculate_lcoe_value _ _ _ _ _ _ _ Hcs Hos He Hl Hr)
    as (x3 & f3 & H3 & Ef3 & _ & E3).
  destruct (calculate_lcoe_value _ _ _ _ _ _ _ Hc Ho Hef Hl Hr)
    as (x4 & f4 & H4 & Ef4 & _ & E4).
  exists base, x1, x2, x3, x4.
  do 5 (split; [assumption|]).
  rewrite E1, E2, E3, E4, Ebase. subst f1 f2 f3 f4. rewrite <- Ef.
  repeat split; field; repeat split; lra.
Qed.

Lemma calculate_lcoe_scaling_witness :
  exists base capex_scaled opex_scaled costs_scaled energy_scaled,
    calculate_lcoe [("Total CAPEX"%string, 1000)] [("Total OPEX"%string, 100)]
      50 2 0.08 = Ok base
    /\ calculate_lcoe
         (scale_dict [("Total CAPEX"%string, 1000)] 1.2)
         [("Total OPEX"%string, 100)] 50 2 0.08 = Ok capex_scaled
    /\ calculate_lcoe
         [("Total CAPEX"%string, 1000)]
         (scale_dict [("Total OPEX"%string, 100)] 1.2)
         50 2 0.08 = Ok opex_scaled
    /\ calculate_lcoe
         (scale_dict [("Total CAPEX"%string, 1000)] 1.2)
         (scale_dict [("Total OPEX"%string, 100)] 1.2)
         50 2 0.08 = Ok costs_scaled
    /\ calculate_lcoe [("Total CAPEX"%string, 1000)] [("Total OPEX"%string, 100)]
         (50 * 1.2) 2 0.08 = Ok energy_scaled
    /\ energy_scaled == base / 1.2
    /\ costs_scaled == base * 1.2
    /\ capex_scaled + opex_scaled == (1 + 1.2) * base.
Proof.
  apply (calculate_lcoe_scaling
           [("Total CAPEX"%string, 1000)] [("Total OPEX"%string, 100)]
           1000 100 50 2%Z 0.08 1.2);
    first [reflexivity | lia | discriminate].
Defined.

(** X20.  The levelized cost is never below the annual OPEX per unit of
    annual energy, when the CAPEX total is not negative; the two are equal
    when the CAPEX total is zero. *)
Theorem calculate_lcoe_floor (capex opex : dict)
    (total_capex annual_opex annual_energy_output : Q)
    (project_lifetime : Z) (discount_rate : Q) :
  getitem capex "Total CAPEX" = Ok total_capex ->
  getitem opex "Total OPEX" = Ok annual_opex ->
  0 < annual_energy_output -> (1 <= project_lifetime)%Z ->
  0 <= discount_rate -> 0 <= total_capex ->
  exists lcoe,
    calculate_lcoe capex opex annual_energy_output project_lifetime
      discount_rate = Ok lcoe
    /\ annual_opex / annual_energy_output <= lcoe
    /\ (total_capex == 0 -> lcoe == annual_opex / annual_energy_output).
Proof.
  intros Hc Ho He Hl Hr Hcap.
  destruct (calculate_lcoe_value capex opex total_capex annual_opex
              annual_energy_output project_lifetime discount_rate
              Hc Ho He Hl Hr) as (l & f & Hlcoe & _ & Hpos & E).
  exists l. split; [exact Hlcoe|].
  assert (Hsplit : l == total_capex / (annual_energy_output * f)
                        + annual_opex / annual_energy_output).
  { rewrite E. field. split; lra. }
  assert (Hden : 0 < annual_energy_output * f)
    by (apply Qmult_lt_0_compat; assumption).
  split.
  - rewrite Hsplit.
    assert (Hfirst : 0 <= total_capex / (annual_energy_output * f)).
    { apply Qle_shift_div_l; [exact Hden | lra]. }
    lra.
  - intro Hzero. rewrite Hsplit, Hzero.
    unfold Qdiv at 1. rewrite Qmult_0_l. ring.
Qed.

Lemma calculate_lcoe_floor_witness :
  exists lcoe,
    calculate_lcoe [("Total CAPEX"%string, 0)] [("Total OPEX"%string, 100)]
      50 2 0.08 = Ok lcoe
    /\ 100 / 50 <= lcoe
    /\ lcoe == 100 / 50.
Proof.
  destruct (calculate_lcoe_floor
              [("Total CAPEX"%string, 0)] [("Total OPEX"%string, 100)]
              0 100 50 2%Z 0.08) as (lcoe & Hlcoe & Hfloor & Hzero);
    try first [reflexivity | lia | discriminate].
  exists lcoe. split; [exact Hlcoe|]. split; [exact Hfloor|].
  apply Hzero. reflexivity.
Defined.

(** ** More on the financial metrics *)

Lemma build_cash_flows_first (equity_amount annual_revenue annual_opex
    annual_debt_service tax_rate : Q) (debt_term project_lifetime : Z) :
  (1 <= project_lifetime)%Z ->
  exists first later,
    build_cash_flows equity_amount annual_revenue annual_opex
      annual_debt_service tax_rate debt_term project_lifetime
    = - equity_amount :: first :: later.
Proof.
  intro Hl. unfold build_cash_flows.
  destruct (range_first project_lifetime Hl) as (years & Hrange).
  rewrite Hrange. cbn [map app]. eauto.
Qed.

(** X21.  With both totals there, [calculate_financial_metrics] raises
    [ZeroDivisionError] on a debt term of 0, whatever the interest rate is,
    and on a discount rate of -1 when the debt term is not 0 and the lifetime
    is at least one year; and it raises the [KeyError] of a breakdown that
    lacks its total. *)
Theorem calculate_financial_metrics_raises :
  (forall (capex opex : dict) (total_capex annual_opex annual_revenue : Q)
          (project_lifetime : Z)
          (discount_rate debt_percentage debt_interest tax_rate : Q),
      getitem capex "Total CAPEX" = Ok total_capex ->
      getitem opex "Total OPEX" = Ok annual_opex ->
      calculate_financial_metrics capex opex annual_revenue project_lifetime
        discount_rate debt_percentage debt_interest 0 tax_rate
      = Raise ZeroDivisionError)
  /\
  (forall (capex opex : dict) (total_capex annual_opex annual_revenue : Q)
          (project_lifetime : Z)
          (discount_rate debt_percentage debt_interest : Q) (debt_term : Z)
          (tax_rate : Q),
      getitem capex "Total CAPEX" = Ok total_capex ->
      getitem opex "Total OPEX" = Ok annual_opex ->
      debt_term <> 0%Z -> (1 <= project_lifetime)%Z -> discount_rate == -1 ->
      calculate_financial_metrics capex opex annual_revenue project_lifetime
        discount_rate debt_percentage debt_interest debt_term tax_rate
      = Raise ZeroDivisionError)
  /\
  (forall (capex opex : dict) (annual_revenue : Q) (project_lifetime : Z)
          (discount_rate debt_percentage debt_interest : Q) (debt_term : Z)
          (tax_rate : Q) (e : exn),
      getitem capex "Total CAPEX" = Raise e ->
      calculate_financial_metrics capex opex annual_revenue project_lifetime
        discount_rate debt_percentage debt_interest debt_term tax_rate
      = Raise e).
Proof.
  split; [|split].
  - intros capex opex C O rev L r dp di tax Hc Ho.
    unfold calculate_financial_metrics. rewrite Hc, Ho. cbn [bind].
    unfold annual_debt_service_of.
    destruct (Qlt_bool 0 di) eqn:E.
    + apply Qlt_bool_iff in E.
      rewrite py_pow_ok by lra. cbn [bind]. unfold py_div.
      assert (Hz : Qeq_bool ((1 + di) ^ 0 - 1) 0 = true) by reflexivity.
      rewrite Hz. reflexivity.
    + unfold py_div.
      assert (Hz : Qeq_bool (inject_Z 0) 0 = true) by reflexivity.
      rewrite Hz. reflexivity.
  - intros capex opex C O rev L r dp di dt tax Hc Ho Hdt Hl Hr.
    unfold calculate_financial_metrics. rewrite Hc, Ho. cbn [bind].
    destruct (annual_debt_service_ok (C * dp) di dt Hdt) as (ads & Hads).
    rewrite Hads. cbn [bind].
    destruct (build_cash_flows_first (C * (1 - dp)) rev O ads tax dt L Hl)
      as (first & later & Hflows).
    rewrite Hflows. unfold npv_of. cbn [tl hd discount_flows].
    unfold py_pow.
    assert (Hz : 1 + r == 0) by lra.
    apply Qeq_bool_iff in Hz as Hb. rewrite Hb.
    cbn [Z.ltb Z.compare andb bind]. unfold py_div.
    assert (Hp : Qeq_bool ((1 + r) ^ 1) 0 = true).
    { apply Qeq_bool_iff. rewrite Hz. reflexivity. }
    rewrite Hp. reflexivity.
  - intros capex opex rev L r dp di dt tax e He.
    unfold calculate_financial_metrics. rewrite He. reflexivity.
Qed.

Lemma calculate_financial_metrics_raises_witness :
  calculate_financial_metrics
    [("Total CAPEX"%string, 1000)] [("Total OPEX"%string, 100)]
    400 3 0.08 0.7 0.05 0 0.3 = Raise ZeroDivisionError.
Proof.
  apply (proj1 calculate_financial_metrics_raises
           [("Total CAPEX"%string, 1000)] [("Total OPEX"%string, 100)]
           1000 100 400 3%Z 0.08 0.7 0.05 0.3); reflexivity.
Defined.

(** The debt service coverage ratio of the returned metrics, in terms of the
    annual debt service. *)
Lemma calculate_financial_metrics_dscr (capex opex : dict) (annual_revenue : Q)
    (project_lifetime : Z) (discount_rate debt_percentage debt_interest : Q)
    (debt_term : Z) (tax_rate : Q) (m : financial_metrics) :
  calculate_financial_metrics capex opex annual_revenue project_lifetime
    discount_rate debt_percentage debt_interest debt_term tax_rate = Ok m ->
  exists total_capex annual_opex annual_debt_service,
    getitem capex "Total CAPEX" = Ok total_capex
    /\ getitem opex "Total OPEX" = Ok annual_opex
    /\ annual_debt_service_of (total_capex * debt_percentage) debt_interest
         debt_term = Ok annual_debt_service
    /\ Debt_Service_Coverage_Ratio m
       = (if Qlt_bool 0 annual_debt_service
          then Finite ((annual_revenue - annual_opex) / annual_debt_service)
          else Infinite)
    /\ Equity_Return m = IRR m.
Proof.
  unfold calculate_financial_metrics.
  destruct (getitem capex "Total CAPEX") as [c|e]; [|discriminate].
  destruct (getitem opex "Total OPEX") as [o|e]; [|discriminate].
  cbn [bind].
  destruct (annual_debt_service_of _ _ _) as [ads|e] eqn:Eads; [|discriminate].
  cbn [bind].
  destruct (npv_of _ discount_rate) as [npv|e]; [|discriminate].
  cbn [bind].
  destruct (calculate_irr _) as [r|e]; [|discriminate].
  cbn [bind]. intro H. injection H as <-.
  exists c, o, ads. cbn [Debt_Service_Coverage_Ratio Equity_Return IRR].
  split; [reflexivity|]. split; [reflexivity|]. split; [exact Eads|].
  split; reflexivity.
Qed.

(** X22.  The debt service coverage ratio is reported as infinite when
    nothing is financed by debt (a debt percentage of 0).  When the CAPEX
    total, the debt percentage and the interest rate are positive and the
    debt term is at least one year, the annual debt service is positive and
    the ratio is the finite [(revenue - OPEX) / debt service]. *)
Theorem calculate_financial_metrics_coverage :
  (forall (capex opex : dict) (annual_revenue : Q) (project_lifetime : Z)
          (discount_rate debt_percentage debt_interest : Q) (debt_term : Z)
          (tax_rate : Q) (m : financial_metrics),
      calculate_financial_metrics capex opex annual_revenue project_lifetime
        discount_rate debt_percentage debt_interest debt_term tax_rate = Ok m ->
      debt_percentage == 0 ->
      Debt_Service_Coverage_Ratio m = Infinite)
  /\
  (forall (capex opex : dict) (total_capex annual_opex annual_revenue : Q)
          (project_lifetime : Z)
          (discount_rate debt_percentage debt_interest : Q) (debt_term : Z)
          (tax_rate : Q) (m : financial_metrics),
      calculate_financial_metrics capex opex annual_revenue project_lifetime
        discount_rate debt_percentage debt_interest debt_term tax_rate = Ok m ->
      getitem capex "Total CAPEX" = Ok total_capex ->
      getitem opex "Total OPEX" = Ok annual_opex ->
      0 < total_capex -> 0 < debt_percentage -> 0 < debt_interest ->
      (1 <= debt_term)%Z ->
      exists annual_debt_service coverage,
        annual_debt_service_of (total_capex * debt_percentage) debt_interest
          debt_term = Ok annual_debt_service
        /\ 0 < annual_debt_service
        /\ Debt_Service_Coverage_Ratio m = Finite coverage
        /\ coverage == (annual_revenue - annual_opex) / annual_debt_service).
Proof.
  split.
  - intros capex opex rev L r dp di dt tax m Hm Hdp.
    destruct (calculate_financial_metrics_dscr _ _ _ _ _ _ _ _ _ _ Hm)
      as (C & O & ads & _ & _ & Hads & Hdscr & _).
    rewrite Hdscr.
    assert (Hzero : ads == 0).
    { unfold annual_debt_service_of in Hads.
      destruct (Qlt_bool 0 di).
      - destruct (py_pow (1 + di) dt) as [g|e] eqn:Eg; [|discriminate].
        cbn [bind] in Hads. apply py_div_inv in Hads.
        rewrite Hads, Hdp. unfold Qdiv. ring.
      - apply py_div_inv in Hads. rewrite Hads, Hdp. unfold Qdiv. ring. }
    assert (Hb : Qlt_bool 0 ads = false)
      by (apply Qlt_bool_false_iff; lra).
    rewrite Hb. reflexivity.
  - intros capex opex C O rev L r dp di dt tax m Hm Hc Ho HC Hdp Hdi Hdt.
    destruct (calculate_financial_metrics_dscr _ _ _ _ _ _ _ _ _ _ Hm)
      as (C' & O' & ads & Hc' & Ho' & Hads & Hdscr & _).
    rewrite Hc in Hc'. injection Hc' as <-.
    rewrite Ho in Ho'. injection Ho' as <-.
    exists ads. eexists. split; [exact Hads|].
    assert (Hpos : 0 < ads).
    { unfold annual_debt_service_of in Hads.
      apply Qlt_bool_iff in Hdi as Hb. rewrite Hb in Hads.
      rewrite py_pow_ok in Hads by lra. cbn [bind] in Hads.
      apply py_div_inv in Hads. rewrite Hads.
      assert (Hg : 1 < (1 + di) ^ dt).
      { apply Qpower_1_lt; [lra | lia]. }
      assert (Hdebt : 0 < C * dp) by (apply Qmult_lt_0_compat; assumption).
      assert (Hnum : 0 < C * dp * di * (1 + di) ^ dt).
      { apply Qmult_lt_0_compat; [|lra].
        apply Qmult_lt_0_compat; assumption. }
      apply Qlt_shift_div_l; lra. }
    split; [exact Hpos|].
    apply Qlt_bool_iff in Hpos as Hb. rewrite Hb in Hdscr.
    split; [exact Hdscr | reflexivity].
Qed.

Lemma calculate_financial_metrics_coverage_witness :
  exists m,
    calculate_financial_metrics
      [("Total CAPEX"%string, 1000)] [("Total OPEX"%string, 100)]
      400 3 0.08 0 0.05 2 0.3 = Ok m
    /\ Debt_Service_Coverage_Ratio m = Infinite.
Proof.
  destruct (calculate_financial_metrics
              [("Total CAPEX"%string, 1000)] [("Total OPEX"%string, 100)]
              400 3 0.08 0 0.05 2 0.3) as [m|e] eqn:Hm.
  - exists m. split; [reflexivity|].
    apply (proj1 calculate_financial_metrics_coverage _ _ _ _ _ _ _ _ _ m Hm).
    reflexivity.
  - vm_compute in Hm. discriminate Hm.
Defined.

(** ** The annuity repays the loan *)

Lemma loan_balance_closed (debt rate payment : Q) (years : nat) :
  ~ 1 + rate == 0 ->
  loan_balance debt rate payment years * rate
    == debt * rate * (1 + rate) ^ Z.of_nat years
       - payment * ((1 + rate) ^ Z.of_nat years - 1).
Proof.
  intro Hrate.
  induction years as [|n IH]; cbn [loan_balance].
  - change ((1 + rate) ^ Z.of_nat 0) with 1. ring.
  - rewrite Nat2Z.inj_succ. unfold Z.succ.
    rewrite Qpower_plus by exact Hrate.
    change ((1 + rate) ^ 1) with (1 + rate).
    set (b := loan_balance debt rate payment n) in *.
    set (g := (1 + rate) ^ Z.of_nat n) in *.
    assert (E : (b * (1 + rate) - payment) * rate
                == b * rate * (1 + rate) - payment * rate) by ring.
    rewrite E, IH. ring.
Qed.

Lemma loan_balance_zero_rate (debt rate payment : Q) (years : nat) :
  rate == 0 ->
  loan_balance debt rate payment years
    == debt - inject_Z (Z.of_nat years) * payment.
Proof.
  intro Hrate.
  induction years as [|n IH]; cbn [loan_balance].
  - change (inject_Z (Z.of_nat 0)) with 0. ring.
  - rewrite Nat2Z.inj_succ. unfold Z.succ. rewrite inject_Z_plus.
    change (inject_Z 1) with 1.
    set (b := loan_balance debt rate payment n) in *.
    assert (E : b * (1 + rate) - payment == b - payment + b * rate) by ring.
    rewrite E, Hrate, IH. ring.
Qed.

(** X23.  The annual debt service repays the loan exactly: with an interest
    rate that is not negative and a debt term of at least one year, the
    balance of the debt, with the interest of each year added before the
    payment of the year, is zero after [debt_term] payments. *)
Theorem annual_debt_service_amortizes (debt_amount debt_interest : Q)
    (debt_term : Z) (payment : Q) :
  0 <= debt_interest -> (1 <= debt_term)%Z ->
  annual_debt_service_of debt_amount debt_interest debt_term = Ok payment ->
  loan_balance debt_amount debt_interest payment (Z.to_nat debt_term) == 0.
Proof.
  intros Hrate Hterm Hpay. unfold annual_debt_service_of in Hpay.
  destruct (Qlt_bool 0 debt_interest) eqn:E.
  - apply Qlt_bool_iff in E.
    rewrite py_pow_ok in Hpay by lra. cbn [bind] in Hpay.
    apply py_div_inv in Hpay.
    assert (Hg : 1 < (1 + debt_interest) ^ debt_term)
      by (apply Qpower_1_lt; [lra | lia]).
    pose proof (loan_balance_closed debt_amount debt_interest payment
                  (Z.to_nat debt_term)) as Hclosed.
    rewrite Z2Nat.id in Hclosed by lia.
    set (g := (1 + debt_interest) ^ debt_term) in *.
    assert (Hp : payment * (g - 1) == debt_amount * debt_interest * g).
    { rewrite Hpay. field. lra. }
    assert (Hzero : loan_balance debt_amount debt_interest payment
                      (Z.to_nat debt_term) * debt_interest == 0).
    { rewrite Hclosed by lra. rewrite Hp. ring. }
    apply Qmult_integral in Hzero. destruct Hzero as [Hz|Hz]; [exact Hz|lra].
  - apply Qlt_bool_false_iff in E.
    assert (Hzero : debt_interest == 0) by lra.
    apply py_div_inv in Hpay.
    rewrite (loan_balance_zero_rate _ _ _ _ Hzero).
    rewrite Z2Nat.id by lia. rewrite Hpay.
    assert (Ht : 0 < inject_Z debt_term).
    { change 0 with (inject_Z 0). rewrite <- Zlt_Qlt. lia. }
    field. lra.
Qed.

Lemma annual_debt_service_amortizes_witness :
  exists payment,
    annual_debt_service_of 700000 0.05 10 = Ok payment
    /\ loan_balance 700000 0.05 payment 10 == 0.
Proof.
  destruct (annual_debt_service_of 700000 0.05 10) as [payment|e] eqn:Hpay.
  - exists payment. split; [reflexivity|].
    apply (annual_debt_service_amortizes 700000 0.05 10 payment).
    + discriminate.
    + lia.
    + exact Hpay.
  - vm_compute in Hpay. discriminate Hpay.
Defined.

(** ** More on the payback period *)

Lemma payback_loop_range (flows : list Q) (year : Z) (c : Q) :
  (0 < year)%Z ->
  (snd (payback_loop flows year c 0) = 0%Z
   /\ (flows <> [] -> fst (payback_loop flows year c 0) < 0))
  \/ (year <= snd (payback_loop flows year c 0)
             < year + Z.of_nat (List.length flows))%Z.
Proof.
  revert year c.
  induction flows as [|cf rest IH]; intros year c Hyear; cbn [payback_loop].
  - left. split; [reflexivity|]. intro H. contradiction.
  - destruct (Qle_bool 0 (c + cf)) eqn:E; cbn [andb Z.eqb].
    + right. rewrite payback_loop_kept by lia.
      cbn [List.length]. lia.
    + apply Qle_bool_false_iff in E.
      destruct (IH (year + 1)%Z (c + cf)) as [[Hzero Hneg]|Hrange]; [lia| |].
      * left. split; [exact Hzero|]. intros _.
        destruct rest as [|cf' rest'].
        -- cbn [payback_loop fst]. exact E.
        -- apply Hneg. discriminate.
      * right. cbn [List.length]. lia.
Qed.

(** X24.  For a project lifetime of at least one year the payback period
    that [calculate_financial_metrics] returns lies between 1 and
    [lifetime + 1]: it is never 0. *)
Theorem calculate_financial_metrics_payback_range
    (capex opex : dict) (annual_revenue : Q) (project_lifetime : Z)
    (discount_rate debt_percentage debt_interest : Q)
    (debt_term : Z) (tax_rate : Q) (m : financial_metrics) :
  calculate_financial_metrics capex opex annual_revenue project_lifetime
    discount_rate debt_percentage debt_interest debt_term tax_rate = Ok m ->
  (1 <= project_lifetime)%Z ->
  (1 <= Payback_Period m <= project_lifetime + 1)%Z.
Proof.
  intros Hm Hl.
  destruct (calculate_financial_metrics_inv _ _ _ _ _ _ _ _ _ _ Hm)
    as (cfs & _ & Hlen & _ & _ & Hpay).
  rewrite Hpay. unfold calculate_payback.
  pose proof (payback_loop_range (tl cfs) 1 (hd 0 cfs) ltac:(lia)) as Hrange.
  destruct (payback_loop (tl cfs) 1 (hd 0 cfs) 0) as [c p].
  cbn [fst snd] in Hrange. rewrite Hlen in Hrange.
  destruct Hrange as [[Hzero Hneg]|Hrange].
  - subst p. cbn [Z.eqb andb].
    assert (Hc : c < 0).
    { apply Hneg. intro Hnil. rewrite Hnil in Hlen. cbn in Hlen. lia. }
    apply Qlt_bool_iff in Hc. rewrite Hc. lia.
  - assert (Hb : (p =? 0)%Z = false) by (apply Z.eqb_neq; lia).
    rewrite Hb. cbn [andb]. lia.
Qed.

Lemma calculate_financial_metrics_payback_range_witness :
  exists m,
    calculate_financial_metrics
      [("Total CAPEX"%string, 1000)] [("Total OPEX"%string, 100)]
      400 3 0.08 0.7 0.05 2 0.3 = Ok m
    /\ (1 <= Payback_Period m <= 3 + 1)%Z.
Proof.
  destruct (calculate_financial_metrics
              [("Total CAPEX"%string, 1000)] [("Total OPEX"%string, 100)]
              400 3 0.08 0.7 0.05 2 0.3) as [m|e] eqn:Hm.
  - exists m. split; [reflexivity|].
    apply (calculate_financial_metrics_payback_range _ _ _ _ _ _ _ _ _ m Hm).
    lia.
  - vm_compute in Hm. discriminate Hm.
Defined.

(** ** Net present value without discounting *)

Lemma discounted_zero_rate (rate : Q) (flows : list Q) (year : Z) (npv : Q) :
  rate == 0 -> discounted rate flows year npv == npv + total_flow flows.
Proof.
  intro Hrate. revert year npv.
  induction flows as [|cf rest IH]; intros year npv;
    cbn [discounted total_flow fold_right].
  - ring.
  - fold (total_flow rest). rewrite IH.
    assert (E : (1 + rate) ^ year == 1).
    { assert (E1 : 1 + rate == 1) by lra. rewrite E1. apply Qpower_1. }
    rewrite E. field.
Qed.

Lemma cumulative_after_cons (c cf : Q) (rest : list Q) :
  cumulative_after c (cf :: rest) (List.length rest)
    == c + cf + total_flow rest.
Proof.
  revert c cf.
  induction rest as [|cf' rest' IH]; intros c cf.
  - cbn. ring.
  - change (cumulative_after c (cf :: cf' :: rest')
              (List.length (cf' :: rest')))
      with (cumulative_after (c + cf) (cf' :: rest') (List.length rest')).
    rewrite IH.
    cbn [total_flow fold_right]. fold (total_flow rest'). ring.
Qed.

Lemma cumulative_after_total (c : Q) (flows : list Q) :
  cumulative_after c flows (pred (List.length flows)) == c + total_flow flows.
Proof.
  destruct flows as [|cf rest].
  - cbn. ring.
  - cbn [List.length pred]. rewrite cumulative_after_cons.
    cbn [total_flow fold_right]. fold (total_flow rest). ring.
Qed.

(** X25.  With a discount rate of zero the NPV is the cumulative cash flow
    at the end of the project; and when that NPV is not negative, the
    payback period falls within the project lifetime (lifetime of at least
    one year). *)
Theorem calculate_financial_metrics_undiscounted
    (capex opex : dict) (annual_revenue : Q) (project_lifetime : Z)
    (discount_rate debt_percentage debt_interest : Q)
    (debt_term : Z) (tax_rate : Q) (m : financial_metrics) :
  calculate_financial_metrics capex opex annual_revenue project_lifetime
    discount_rate debt_percentage debt_interest debt_term tax_rate = Ok m ->
  (1 <= project_lifetime)%Z -> discount_rate == 0 ->
  exists cash_flows,
    cash_flows_of capex opex annual_revenue project_lifetime
      debt_percentage debt_interest debt_term tax_rate = Ok cash_flows
    /\ NPV m == cumulative_cash_flow cash_flows project_lifetime
    /\ (0 <= NPV m -> (1 <= Payback_Period m <= project_lifetime)%Z).
Proof.
  intros Hm Hl Hrate.
  destruct (calculate_financial_metrics_inv _ _ _ _ _ _ _ _ _ _ Hm)
    as (cfs & Hcfs & Hlen & Hnpv & _ & Hpay).
  exists cfs. split; [exact Hcfs|].
  apply npv_of_inv in Hnpv.
  assert (Hfinal : cumulative_cash_flow cfs project_lifetime
                   = cumulative_after (hd 0 cfs) (tl cfs)
                       (pred (List.length (tl cfs)))).
  { unfold cumulative_cash_flow. rewrite Hlen.
    destruct (Z.to_nat project_lifetime) as [|j] eqn:Ej; [lia|].
    reflexivity. }
  assert (Hsame : NPV m == cumulative_cash_flow cfs project_lifetime).
  { rewrite Hnpv, Hfinal. unfold npv_value.
    rewrite (discounted_zero_rate _ _ _ _ Hrate), cumulative_after_total.
    reflexivity. }
  split; [exact Hsame|].
  intro Hnonneg. rewrite Hsame, Hfinal in Hnonneg.
  rewrite Hpay. unfold calculate_payback.
  pose proof (payback_loop_range (tl cfs) 1 (hd 0 cfs) ltac:(lia)) as Hrange.
  pose proof (payback_loop_fst (tl cfs) 1 (hd 0 cfs) 0) as Hfst.
  destruct (payback_loop (tl cfs) 1 (hd 0 cfs) 0) as [c p].
  cbn [fst snd] in Hrange, Hfst. rewrite Hlen in Hrange.
  destruct Hrange as [[Hzero Hneg]|Hrange].
  - exfalso.
    assert (Hc : c < 0).
    { apply Hneg. intro Hnil. rewrite Hnil in Hlen. cbn in Hlen. lia. }
    rewrite Hfst in Hc. lra.
  - assert (Hb : (p =? 0)%Z = false) by (apply Z.eqb_neq; lia).
    rewrite Hb. cbn [andb]. lia.
Qed.

Lemma calculate_financial_metrics_undiscounted_witness :
  exists m cash_flows,
    calculate_financial_metrics
      [("Total CAPEX"%string, 1000)] [("Total OPEX"%string, 100)]
      400 3 0 0.7 0.05 2 0.3 = Ok m
    /\ cash_flows_of
         [("Total CAPEX"%string, 1000)] [("Total OPEX"%string, 100)]
         400 3 0.7 0.05 2 0.3 = Ok cash_flows
    /\ NPV m == cumulative_cash_flow cash_flows 3.
Proof.
  destruct (calculate_financial_metrics
              [("Total CAPEX"%string, 1000)] [("Total OPEX"%string, 100)]
              400 3 0 0.7 0.05 2 0.3) as [m|e] eqn:Hm.
  - destruct (calculate_financial_metrics_undiscounted _ _ _ _ _ _ _ _ _ m Hm)
      as (cash_flows & Hflows & Hnpv & _); [lia | reflexivity |].
    exists m, cash_flows.
    split; [reflexivity|]. split; [exact Hflows | exact Hnpv].
  - vm_compute in Hm. discriminate Hm.
Defined.

(** ** The active feedstocks of the session *)

Lemma store_new (d : feedstocks) (name : string) (v : feedstock) :
  contains d name = false -> store d name v = d ++ [(name, v)].
Proof.
  unfold contains.
  induction d as [|[k x] d IH]; cbn [existsb store app fst]; intro H.
  - reflexivity.
  - apply orb_false_iff in H as [Hk Hd]. rewrite Hk, (IH Hd). reflexivity.
Qed.

Lemma del_last (d : feedstocks) (name : string) (v : feedstock) :
  contains d name = false -> del (d ++ [(name, v)]) name = d.
Proof.
  unfold contains.
  induction d as [|[k x] d IH]; cbn [existsb del app fst]; intro H.
  - rewrite String.eqb_refl. reflexivity.
  - apply orb_false_iff in H as [Hk Hd]. rewrite Hk, (IH Hd). reflexivity.
Qed.

Lemma contains_last (d : feedstocks) (name : string) (v : feedstock) :
  contains (d ++ [(name, v)]) name = true.
Proof.
  unfold contains. rewrite existsb_app. cbn [existsb fst].
  rewrite String.eqb_refl. apply orb_true_iff. right. reflexivity.
Qed.

Lemma lookup_last (d : feedstocks) (name : string) (v : feedstock) :
  contains d name = false -> lookup (d ++ [(name, v)]) name = Ok v.
Proof.
  unfold contains.
  induction d as [|[k x] d IH]; cbn [existsb lookup app fst]; intro H.
  - rewrite String.eqb_refl. reflexivity.
  - apply orb_false_iff in H as [Hk Hd]. rewrite Hk. exact (IH Hd).
Qed.

Lemma contains_keys (d : feedstocks) (name : string) :
  contains d name = true <-> In name (keys d).
Proof.
  unfold contains, keys. rewrite existsb_exists, in_map_iff. split.
  - intros ([k x] & Hin & Heq). cbn [fst] in Heq.
    apply String.eqb_eq in Heq. subst k. exists (name, x). split; auto.
  - intros ([k x] & Heq & Hin). cbn [fst] in Heq. subst k.
    exists (name, x). split; [exact Hin|]. cbn [fst]. apply String.eqb_refl.
Qed.

(** X26.  Adding a feedstock that is not active and then removing it gives
    back the active set as it was; in between, the feedstock is active with
    the parameters of the library.  Adding a name that is neither active nor
    in the library raises [KeyError]. *)
Theorem add_remove_feedstock (active_feedstocks : feedstocks)
    (feedstock_name : string) :
  contains active_feedstocks feedstock_name = false ->
  (forall defaults,
      lookup DEFAULT_FEEDSTOCKS feedstock_name = Ok defaults ->
      exists added message,
        add_feedstock active_feedstocks feedstock_name
          = Ok (added, Some message)
        /\ lookup added feedstock_name = Ok defaults
        /\ fst (remove_feedstock added feedstock_name) = active_feedstocks)
  /\ (forall e,
         lookup DEFAULT_FEEDSTOCKS feedstock_name = Raise e ->
         add_feedstock active_feedstocks feedstock_name = Raise e).
Proof.
  intro Hnew. unfold add_feedstock. rewrite Hnew. cbn [negb]. split.
  - intros defaults Hlib. rewrite Hlib. cbn [bind].
    rewrite store_new by exact Hnew.
    do 2 eexists. split; [reflexivity|].
    split; [apply lookup_last; exact Hnew|].
    unfold remove_feedstock. rewrite contains_last. cbn [fst].
    apply del_last. exact Hnew.
  - intros e Hlib. rewrite Hlib. reflexivity.
Qed.

Lemma add_remove_feedstock_witness :
  exists added message,
    add_feedstock [] "Meat" = Ok (added, Some message)
    /\ lookup added "Meat" = Ok meat
    /\ fst (remove_feedstock added "Meat") = [].
Proof.
  apply (proj1 (add_remove_feedstock [] "Meat" eq_refl) meat). reflexivity.
Defined.

Lemma keys_del_subset (d : feedstocks) (name k : string) :
  In k (keys (del d name)) -> In k (keys d).
Proof.
  unfold keys.
  induction d as [|[k' x] d IH]; cbn [del map fst In]; intro H.
  - exact H.
  - destruct (String.eqb name k').
    + right. exact H.
    + cbn [map fst In] in H. destruct H as [H|H]; [left; exact H|].
      right. apply IH. exact H.
Qed.

Lemma keys_del_nodup (d : feedstocks) (name : string) :
  NoDup (keys d) ->
  NoDup (keys (del d name)) /\ ~ In name (keys (del d name)).
Proof.
  unfold keys.
  induction d as [|[k x] d IH]; cbn [del map fst]; intro H.
  - split; [constructor | intros []].
  - inversion H as [|? ? Hnotin Hrest]; subst.
    destruct (String.eqb name k) eqn:E.
    + apply String.eqb_eq in E. subst k. split; assumption.
    + apply String.eqb_neq in E. destruct (IH Hrest) as (Hnd & Hgone).
      cbn [map fst]. split.
      * constructor; [|exact Hnd].
        intro Hin. apply Hnotin. apply (keys_del_subset d name k). exact Hin.
      * intros [Heq|Hin]; [congruence | contradiction].
Qed.

(** X27.  The names of the active feedstocks stay distinct under
    [add_feedstock] and [remove_feedstock]; after [remove_feedstock] the name
    is no longer active; and [add_feedstock] on a name that is active changes
    nothing and shows no message, also when the name is not in the
    library. *)
Theorem active_feedstocks_distinct (active_feedstocks : feedstocks)
    (feedstock_name : string) :
  NoDup (keys active_feedstocks) ->
  (forall added message,
      add_feedstock active_feedstocks feedstock_name = Ok (added, message) ->
      NoDup (keys added) /\ contains added feedstock_name = true)
  /\ NoDup (keys (fst (remove_feedstock active_feedstocks feedstock_name)))
  /\ contains (fst (remove_feedstock active_feedstocks feedstock_name))
              feedstock_name = false
  /\ (contains active_feedstocks feedstock_name = true ->
      add_feedstock active_feedstocks feedstock_name
        = Ok (active_feedstocks, None)).
Proof.
  intro Hnd. split; [|split; [|split]].
  - intros added message. unfold add_feedstock.
    destruct (contains active_feedstocks feedstock_name) eqn:E; cbn [negb].
    + intro H. injection H as <- _. split; [exact Hnd | exact E].
    + destruct (lookup DEFAULT_FEEDSTOCKS feedstock_name) as [v|e];
        [|discriminate].
      cbn [bind]. intro H. injection H as <- _.
      rewrite store_new by exact E. split; [|apply contains_last].
      unfold keys. rewrite map_app. cbn [map fst].
      apply NoDup_app; [exact Hnd | repeat constructor; intros [] |].
      intros k Hin [Hk|[]]. subst k.
      apply contains_keys in Hin. congruence.
  - unfold remove_feedstock.
    destruct (contains active_feedstocks feedstock_name); cbn [fst];
      [apply keys_del_nodup|]; exact Hnd.
  - unfold remove_feedstock.
    destruct (contains active_feedstocks feedstock_name) eqn:E; cbn [fst];
      [|exact E].
    destruct (contains (del active_feedstocks feedstock_name) feedstock_name)
      eqn:E'; [|reflexivity].
    apply contains_keys in E'.
    destruct (keys_del_nodup active_feedstocks feedstock_name Hnd) as (_ & Hgone).
    contradiction.
  - intro Hactive. unfold add_feedstock. rewrite Hactive. reflexivity.
Qed.

Lemma active_feedstocks_distinct_witness :
  NoDup (keys (fst (remove_feedstock [("Meat"%string, meat)] "Meat")))
  /\ contains (fst (remove_feedstock [("Meat"%string, meat)] "Meat")) "Meat"
     = false.
Proof.
  destruct (active_feedstocks_distinct [("Meat"%string, meat)] "Meat")
    as (_ & Hnd & Hgone & _).
  - repeat constructor. intros [].
  - split; [exact Hnd | exact Hgone].
Defined.

(** ** The financial tab *)

Lemma energy_outputs_biogas (methane_yield : Q) :
  exists results energy,
    calculate_biogas_to_energy methane_yield "biogas" = Ok results
    /\ getitem results "biogas_energy_gj" = Ok energy
    /\ get results "power_capacity_kw" 0 = 0.
Proof.
  do 2 eexists. repeat split.
Qed.

Lemma energy_outputs_chp (methane_yield : Q) :
  exists results electrical thermal power,
    calculate_biogas_to_energy methane_yield "chp" = Ok results
    /\ getitem results "electrical_output_mwh" = Ok electrical
    /\ getitem results "thermal_output_gj" = Ok thermal
    /\ getitem results "power_capacity_kw" = Ok power
    /\ get results "power_capacity_kw" 0 = power.
Proof.
  do 4 eexists. repeat split.
Qed.

Lemma energy_outputs_other (methane_yield : Q) (output_type : string) :
  String.eqb output_type "biogas" = false ->
  String.eqb output_type "chp" = false ->
  exists results,
    calculate_biogas_to_energy methane_yield output_type = Ok results
    /\ getitem results "electrical_output_mwh"
       = Raise (KeyError "electrical_output_mwh").
Proof.
  intros Hb Hc. unfold calculate_biogas_to_energy. rewrite Hb, Hc.
  eexists. split; reflexivity.
Qed.

Lemma calculate_capex_has_total (digester_volume : Q) (output_type : string)
    (chp_capacity : Q) :
  exists total,
    getitem (calculate_capex digester_volume output_type chp_capacity)
            "Total CAPEX" = Ok total.
Proof.
  unfold calculate_capex.
  destruct (String.eqb output_type "biogas"); eexists; reflexivity.
Qed.

Lemma calculate_opex_same_pathway (total_feedstock digester_volume : Q)
    (output_type : string) (chp_capacity capex_volume capex_chp_capacity : Q) :
  exists opex total,
    calculate_opex total_feedstock digester_volume output_type
      (calculate_capex capex_volume output_type capex_chp_capacity)
      chp_capacity = Ok opex
    /\ getitem opex "Total OPEX" = Ok total.
Proof.
  unfold calculate_opex, calculate_capex.
  destruct (String.eqb output_type "biogas");
    cbn -[Qplus Qmult Qdiv Qlt_bool]; do 2 eexists; split; reflexivity.
Qed.

Lemma calculate_lcoe_ok (capex opex : dict) (total_capex annual_opex : Q)
    (annual_energy_output : Q) (project_lifetime : Z) (discount_rate : Q) :
  getitem capex "Total CAPEX" = Ok total_capex ->
  getitem opex "Total OPEX" = Ok annual_opex ->
  ~ discount_rate == -1 ->
  exists lcoe,
    calculate_lcoe capex opex annual_energy_output project_lifetime
      discount_rate = Ok lcoe.
Proof.
  intros Hc Ho Hr. unfold calculate_lcoe.
  destruct (Qle_bool annual_energy_output 0); [eauto|].
  rewrite Hc, Ho. cbn [bind].
  assert (Hrate : ~ 1 + discount_rate == 0) by lra.
  destruct (present_value_spec annual_opex discount_rate
              (range 1 (project_lifetime + 1)) total_capex Hrate)
    as (pv_costs & Hcosts & _).
  destruct (present_value_spec annual_energy_output discount_rate
              (range 1 (project_lifetime + 1)) 0 Hrate)
    as (pv_energy & Henergy & _).
  rewrite Hcosts, Henergy. cbn [bind].
  destruct (Qlt_bool 0 pv_energy); eauto.
Qed.

(** X28.  On the two output types of the dashboard, ['biogas'] and ['chp'],
    the calculations of the financial tab go through for any totals, lifetime
    and financing, as long as the debt term is not 0 and the discount rate is
    not -1: every key that one step reads from the result of another is
    there.  On any other output type they raise [KeyError] on
    ['electrical_output_mwh']. *)
Theorem financial_tab_pathways
    (total_quantity total_vs_tonnes total_methane_yield : Q)
    (output_type : string) (project_lifetime : Z)
    (discount_rate debt_percentage debt_interest : Q) (debt_term : Z) :
  (output_type = "biogas"%string \/ output_type = "chp"%string ->
   debt_term <> 0%Z -> ~ discount_rate == -1 ->
   exists results,
     financial_tab total_quantity total_vs_tonnes total_methane_yield
       output_type project_lifetime discount_rate debt_percentage
       debt_interest debt_term = Ok results)
  /\
  (String.eqb output_type "biogas" = false ->
   String.eqb output_type "chp" = false ->
   financial_tab total_quantity total_vs_tonnes total_methane_yield
     output_type project_lifetime discount_rate debt_percentage
     debt_interest debt_term = Raise (KeyError "electrical_output_mwh")).
Proof.
  unfold financial_tab.
  rewrite calculate_digester_size_value by discriminate.
  cbn [bind].
  set (digester_size := total_vs_tonnes * 1000 / 365 / default_loading_rate).
  set (volume := digester_size * (if Qlt_bool 5000 digester_size then 2 else 1)).
  split.
  - intros Hot Hdt Hr. destruct Hot as [-> | ->].
    + destruct (energy_outputs_biogas total_methane_yield)
        as (energy_outputs & energy & Houtputs & Henergy & Hpower).
      rewrite Houtputs. cbn [bind].
      change (String.eqb "biogas" "chp") with false.
      change (String.eqb "biogas" "biogas") with true.
      cbv iota. cbn [bind]. rewrite Hpower.
      destruct (calculate_opex_same_pathway total_quantity volume "biogas"
                  0 volume 0) as (opex & total_opex & Hopex & Htotal).
      rewrite Hopex. cbn [bind]. rewrite Henergy. cbn [bind].
      destruct (calculate_capex_has_total volume "biogas" 0)
        as (total_capex & Hcapex).
      destruct (calculate_lcoe_ok _ _ _ _ energy project_lifetime
                  discount_rate Hcapex Htotal Hr) as (lcoe & Hlcoe).
      rewrite Hlcoe. cbn [bind].
      destruct (calculate_financial_metrics_ok _ _ total_capex total_opex
                  (energy * 15) project_lifetime discount_rate debt_percentage
                  debt_interest debt_term 0.3 Hcapex Htotal Hdt Hr)
        as (m & Hm).
      rewrite Hm. cbn [bind]. eauto.
    + destruct (energy_outputs_chp total_methane_yield)
        as (energy_outputs & electrical & thermal & power
            & Houtputs & Helectrical & Hthermal & Hpower & Hget).
      rewrite Houtputs. cbn [bind].
      change (String.eqb "chp" "chp") with true.
      change (String.eqb "chp" "biogas") with false.
      cbv iota. rewrite Hpower. cbn [bind]. rewrite Hget.
      destruct (calculate_opex_same_pathway total_quantity volume "chp"
                  power volume power) as (opex & total_opex & Hopex & Htotal).
      rewrite Hopex. cbn [bind]. rewrite Helectrical. cbn [bind].
      destruct (calculate_capex_has_total volume "chp" power)
        as (total_capex & Hcapex).
      destruct (calculate_lcoe_ok _ _ _ _ electrical project_lifetime
                  discount_rate Hcapex Htotal Hr) as (lcoe & Hlcoe).
      rewrite Hlcoe. cbn [bind]. rewrite Hthermal. cbn [bind].
      destruct (calculate_financial_metrics_ok _ _ total_capex total_opex
                  (electrical * 100 + thermal * 0.5 * 10) project_lifetime
                  discount_rate debt_percentage debt_interest debt_term 0.3
                  Hcapex Htotal Hdt Hr) as (m & Hm).
      rewrite Hm. cbn [bind]. eauto.
  - intros Hb Hc.
    destruct (energy_outputs_other total_methane_yield output_type Hb Hc)
      as (energy_outputs & Houtputs & Hmissing).
    rewrite Houtputs. cbn [bind]. rewrite Hc, Hb. cbn [bind].
    destruct (calculate_capex_has_total volume output_type 0)
      as (total_capex & Hcapex).
    assert (Hopex : exists opex,
               calculate_opex total_quantity volume output_type
                 (calculate_capex volume output_type 0)
                 (get energy_outputs "power_capacity_kw" 0) = Ok opex).
    { unfold calculate_opex. rewrite Hcapex, Hb. cbn [bind].
      eexists. reflexivity. }
    destruct Hopex as (opex & Hopex). rewrite Hopex. cbn [bind].
    rewrite Hmissing. reflexivity.
Qed.

Lemma financial_tab_pathways_witness :
  exists results,
    financial_tab 10000 3000 1500000 "chp" 20 0.08 0.7 0.05 10 = Ok results.
Proof.
  apply (proj1 (financial_tab_pathways 10000 3000 1500000 "chp" 20 0.08
                  0.7 0.05 10)).
  - right. reflexivity.
  - discriminate.
  - intro H. vm_compute in H. discriminate H.
Defined.

(** ** Operating cost and plant size *)

(** The total of a breakdown that [calculate_opex] returns, in terms of its
    inputs. *)
Lemma calculate_opex_total (total_feedstock digester_volume : Q)
    (output_type : string) (capex : dict) (chp_capacity : Q) (opex : dict) :
  calculate_opex total_feedstock digester_volume output_type capex
    chp_capacity = Ok opex ->
  exists total_capex pathway labor,
    getitem capex "Total CAPEX" = Ok total_capex
    /\ (if String.eqb output_type "biogas"
        then exists upgrading,
               getitem capex "Biogas Upgrading System" = Ok upgrading
               /\ pathway = 0.05 * upgrading
        else pathway = chp_capacity * 8000 * 0.02)
    /\ labor = (if Qlt_bool digester_volume 2000 then 150000
                else if Qlt_bool digester_volume 5000 then 250000
                else 350000)
    /\ getitem opex "Total OPEX"
       = Ok (0.03 * total_capex + labor + total_feedstock * 2.5
             + 0.01 * total_capex + pathway + digester_volume * 15).
Proof.
  unfold calculate_opex.
  destruct (getitem capex "Total CAPEX") as [t|e]; [|discriminate].
  cbn [bind].
  destruct (String.eqb output_type "biogas").
  - destruct (getitem capex "Biogas Upgrading System") as [u|e];
      [|discriminate].
    cbn [bind]. intro H. injection H as <-.
    exists t, (0.05 * u). eexists.
    split; [reflexivity|]. split; [exists u; split; reflexivity|].
    split; reflexivity.
  - cbn [bind]. intro H. injection H as <-.
    exists t, (chp_capacity * 8000 * 0.02). eexists.
    split; [reflexivity|]. split; [reflexivity|]. split; reflexivity.
Qed.

(** X29.  For the same feedstock, CAPEX breakdown, output type and CHP
    capacity, a larger digester never has a lower total OPEX: the utilities
    grow with the volume and the labor cost steps up at 2000 and at 5000
    cubic metres, never down. *)
Theorem calculate_opex_monotone (total_feedstock volume1 volume2 : Q)
    (output_type : string) (capex : dict) (chp_capacity : Q)
    (opex1 opex2 : dict) :
  calculate_opex total_feedstock volume1 output_type capex chp_capacity
    = Ok opex1 ->
  calculate_opex total_feedstock volume2 output_type capex chp_capacity
    = Ok opex2 ->
  volume1 <= volume2 ->
  exists total1 total2,
    getitem opex1 "Total OPEX" = Ok total1
    /\ getitem opex2 "Total OPEX" = Ok total2
    /\ total1 <= total2.
Proof.
  intros H1 H2 Hle.
  destruct (calculate_opex_total _ _ _ _ _ _ H1)
    as (t1 & p1 & l1 & Ht1 & Hp1 & Hl1 & Htotal1).
  destruct (calculate_opex_total _ _ _ _ _ _ H2)
    as (t2 & p2 & l2 & Ht2 & Hp2 & Hl2 & Htotal2).
  rewrite Ht1 in Ht2. injection Ht2 as <-.
  assert (Hp : p1 = p2).
  { destruct (String.eqb output_type "biogas").
    - destruct Hp1 as (u1 & Hu1 & ->). destruct Hp2 as (u2 & Hu2 & ->).
      rewrite Hu1 in Hu2. injection Hu2 as <-. reflexivity.
    - congruence. }
  subst p2.
  assert (Hlabor : l1 <= l2).
  { subst l1 l2.
    destruct (Qlt_bool volume1 2000) eqn:E1;
      destruct (Qlt_bool volume2 2000) eqn:E2;
      destruct (Qlt_bool volume1 5000) eqn:E3;
      destruct (Qlt_bool volume2 5000) eqn:E4;
      try discriminate;
      repeat match goal with
             | H : Qlt_bool _ _ = true |- _ => apply Qlt_bool_iff in H
             | H : Qlt_bool _ _ = false |- _ => apply Qlt_bool_false_iff in H
             end;
      lra. }
  do 2 eexists. split; [exact Htotal1|]. split; [exact Htotal2|].
  lra.
Qed.

Lemma calculate_opex_monotone_witness :
  exists opex1 opex2 total1 total2,
    calculate_opex 100 1999 "chp" (calculate_capex 1999 "chp" 10) 10 = Ok opex1
    /\ calculate_opex 100 2000 "chp" (calculate_capex 1999 "chp" 10) 10
       = Ok opex2
    /\ getitem opex1 "Total OPEX" = Ok total1
    /\ getitem opex2 "Total OPEX" = Ok total2
    /\ total1 <= total2.
Proof.
  destruct (calculate_opex 100 1999 "chp" (calculate_capex 1999 "chp" 10) 10)
    as [opex1|e] eqn:H1; [|vm_compute in H1; discriminate H1].
  destruct (calculate_opex 100 2000 "chp" (calculate_capex 1999 "chp" 10) 10)
    as [opex2|e] eqn:H2; [|vm_compute in H2; discriminate H2].
  destruct (calculate_opex_monotone _ _ _ _ _ _ _ _ H1 H2)
    as (total1 & total2 & Ht1 & Ht2 & Hle); [discriminate|].
  exists opex1, opex2, total1, total2. repeat split; assumption.
Defined.
